(** * A verification model of the GoServer HTTP front end (src/main.go)

    The program registers five routes on a [net/http] request multiplexer
    and serves them with small handlers.  This development embeds

    - the handlers and the route registration of [main.go], statement by
      statement, in a state-and-error monad over the response writer and
      the two external collaborators (the storage probe and pod creation);
    - the parts of the Go standard library the handlers call, as far as
      their documented behaviour is needed: the response writer, the
      format-string interpreter of [fmt], [http.Redirect], [http.NotFound]
      and the pattern matching of [http.ServeMux].

    Go strings are byte sequences and are modelled by [string]. *)

From Stdlib Require Import String Ascii List Bool Arith Lia.
From stdpp Require Import base option strings gmap.

Local Open Scope string_scope.
Local Open Scope list_scope.

(** ** Constants of [main.go] *)

(** Name of the application. *)
Definition Name : string := "divman's GoServer".
(** Version of the application. *)
Definition Version : string := "1.0.0".

(** ** Status codes of [net/http] used by the program *)

Definition StatusOK : nat := 200.
Definition StatusMovedPermanently : nat := 301.
Definition StatusSeeOther : nat := 303.
Definition StatusBadRequest : nat := 400.
Definition StatusNotFound : nat := 404.
Definition StatusInternalServerError : nat := 500.

(** [http.StatusText], on the codes the program can produce. *)
Definition statusText (code : nat) : string :=
  if Nat.eqb code 200 then "OK"
  else if Nat.eqb code 301 then "Moved Permanently"
  else if Nat.eqb code 303 then "See Other"
  else if Nat.eqb code 400 then "Bad Request"
  else if Nat.eqb code 404 then "Not Found"
  else if Nat.eqb code 500 then "Internal Server Error"
  else "".

(** ** Byte and string helpers *)

Definition newline : string := String (ascii_of_nat 10) "".

Definition is_lower (c : ascii) : bool :=
  Nat.leb 97 (nat_of_ascii c) && Nat.leb (nat_of_ascii c) 122.
Definition is_upper (c : ascii) : bool :=
  Nat.leb 65 (nat_of_ascii c) && Nat.leb (nat_of_ascii c) 90.
Definition is_digit (c : ascii) : bool :=
  Nat.leb 48 (nat_of_ascii c) && Nat.leb (nat_of_ascii c) 57.
Definition is_letter (c : ascii) : bool := is_lower c || is_upper c.

(** [strings.HasSuffix s "/"]. *)
Fixpoint ends_with_slash (s : string) : bool :=
  match s with
  | "" => false
  | String c "" => Ascii.eqb c "/"
  | String _ rest => ends_with_slash rest
  end.

(** [strings.HasPrefix s prefix]. *)
Fixpoint HasPrefix (s prefix : string) : bool :=
  match prefix with
  | "" => true
  | String a prefix' =>
    match s with
    | "" => false
    | String b s' => Ascii.eqb b a && HasPrefix s' prefix'
    end
  end.

(** Does the byte [c] occur in [s]? *)
Fixpoint contains_byte (c : ascii) (s : string) : bool :=
  match s with
  | "" => false
  | String d rest => Ascii.eqb d c || contains_byte c rest
  end.

(** ** The format interpreter of [fmt], on string operands

    [doPrintf format a] is what [fmt.Fprintf(w, format, a...)] writes when
    every operand is a string.  The model covers the directives the
    package documentation fixes without reference to flags, widths,
    precisions or argument indices:

    - text outside directives is copied;
    - [%%] writes a percent sign and absorbs no operand;
    - [%s] and [%v] write the next string operand unchanged;
    - a letter verb with no operand left writes [%!verb(MISSING)];
    - a percent sign that ends the format writes [%!(NOVERB)].

    Every other directive, and operands left over at the end of the
    format, are outside the modelled fragment: the result is [None]. *)
Module fmt.

Definition noVerbString : string := "%!(NOVERB)".
Definition percentBangString : string := "%!".
Definition missingString : string := "(MISSING)".

Fixpoint doPrintf (format : string) (a : list string) : option string :=
  match format with
  | "" => match a with [] => Some "" | _ :: _ => None end
  | String c rest =>
    if Ascii.eqb c "%" then
      match rest with
      | "" => match a with [] => Some noVerbString | _ :: _ => None end
      | String verb rest' =>
        if Ascii.eqb verb "%" then
          String "%" <$> doPrintf rest' a
        else if is_letter verb then
          match a with
          | [] =>
            (fun out => percentBangString +:+ String verb missingString +:+ out)
              <$> doPrintf rest' a
          | arg :: a' =>
            if Ascii.eqb verb "s" || Ascii.eqb verb "v"
            then (fun out => arg +:+ out) <$> doPrintf rest' a'
            else None
          end
        else None
      end
    else String c <$> doPrintf rest a
  end.

(** [fmt.Sprint] and [fmt.Sprintln] of a single string operand. *)
Definition Sprint (s : string) : string := s.
Definition Sprintln (s : string) : string := s +:+ newline.

End fmt.

(** ** The response writer

    [http.ResponseWriter] as a recorder of what the handler sent: the
    status code, the header map and the body, with the flag that says
    whether the status line has gone out.  The status of a response on
    which [WriteHeader] was never called is 200.  What the transport does
    with the response afterwards (it drops the body of the answer to a
    HEAD request, for one) is below the handlers and not modelled. *)
Record ResponseWriter := mkResponseWriter {
  Code : nat;
  HeaderMap : gmap string (list string);
  Body : string;
  wroteHeader : bool
}.

Definition NewRecorder : ResponseWriter :=
  {| Code := 200; HeaderMap := ∅; Body := ""; wroteHeader := false |}.

(** [w.WriteHeader(code)]: the first call fixes the status, later calls
    are ignored. *)
Definition WriteHeader (code : nat) (w : ResponseWriter) : ResponseWriter :=
  if wroteHeader w then w
  else {| Code := code; HeaderMap := HeaderMap w; Body := Body w;
          wroteHeader := true |}.

(** [w.Write(data)]: sends the status line with 200 if it has not been
    sent, then appends to the body. *)
Definition Write (data : string) (w : ResponseWriter) : ResponseWriter :=
  let w' := if wroteHeader w then w else WriteHeader StatusOK w in
  {| Code := Code w'; HeaderMap := HeaderMap w'; Body := Body w' +:+ data;
     wroteHeader := wroteHeader w' |}.

(** [w.Header().Set(key, value)], for a key in canonical form.  The
    recorder keeps the headers that were sent: a change made after the
    status line has gone out does not reach the client. *)
Definition HeaderSet (key value : string) (w : ResponseWriter) : ResponseWriter :=
  if wroteHeader w then w
  else {| Code := Code w; HeaderMap := <[key := [value]]> (HeaderMap w);
          Body := Body w; wroteHeader := wroteHeader w |}.

(** [w.Header().Get(key)]: the first value of the key, if any. *)
Definition HeaderGet (key : string) (w : ResponseWriter) : option string :=
  match HeaderMap w !! key with
  | Some (v :: _) => Some v
  | _ => None
  end.

(** ** Requests

    The fields of [http.Request] the program and the multiplexer read.
    [Header] lists the entries of the request's header map in the order in
    which a [range] over the map visits them (Go leaves that order
    unspecified; the values of one key keep their order of arrival).
    [ReqBody] is what [ioutil.ReadAll(req.Body)] returns: the bytes read
    and the error, if the stream failed before its end. *)
Record Request := mkRequest {
  Method : string;
  RequestURI : string;
  ProtoMajor : nat;
  ProtoMinor : nat;
  Path : string;
  RawQuery : string;
  Header : list (string * list string);
  ReqBody : string * option string
}.

(** ** External collaborators and the world a handler runs in *)

(** The [Storage] interface: one method, [Ping() (string, error)].  An
    error is represented by its message, [err.Error()].  A probe is a
    round trip to the backend, so it may change the storage's state. *)
Class Storage (St : Type) := Ping : St -> (string * option string) * St.

(** What a handler does besides writing its response. *)
Inductive Event :=
  | EvPing
  | EvCreatePod
  | EvLog (msg : string).

Global Instance Event_eq_dec : EqDecision Event.
Proof. solve_decision. Defined.

Section Server.

Context {St K : Type} `{!Storage St}.

(** [CreatePod], declared elsewhere in package [main]: it talks to the
    cluster (state [K]) and returns the text the handler prints. *)
Variable CreatePod : K -> string * K.

Record World := mkWorld {
  resp : ResponseWriter;
  store : St;
  cluster : K;
  trace : list Event
}.

(** Handlers are computations on the world that may leave the modelled
    fragment of the standard library ([None]). *)
Definition M (A : Type) : Type := World -> option (A * World).

Global Instance M_ret : MRet M := fun A a w => Some (a, w).
Global Instance M_bind : MBind M := fun A B f c w =>
  match c w with
  | Some (a, w') => f a w'
  | None => None
  end.

Definition unmodelled {A : Type} : M A := fun _ => None.

Definition getResp : M ResponseWriter := fun w => Some (resp w, w).

Definition onResp (f : ResponseWriter -> ResponseWriter) : M unit := fun w =>
  Some (tt, {| resp := f (resp w); store := store w; cluster := cluster w;
               trace := trace w |}).

Definition emit (e : Event) : M unit := fun w =>
  Some (tt, {| resp := resp w; store := store w; cluster := cluster w;
               trace := trace w ++ [e] |}).

Definition when (b : bool) (c : M unit) : M unit :=
  if b then c else mret tt.

(** [fmt.Fprintf(resp, format, a...)]. *)
Definition Fprintf (format : string) (a : list string) : M unit :=
  match fmt.doPrintf format a with
  | Some out => onResp (Write out)
  | None => unmodelled
  end.

(** [fmt.Fprint(resp, s)] and [fmt.Fprintln(resp, s)]. *)
Definition Fprint (s : string) : M unit := onResp (Write (fmt.Sprint s)).
Definition Fprintln (s : string) : M unit := onResp (Write (fmt.Sprintln s)).

(** [log.Printf] and [log.Println] on the standard logger; the event
    carries the formatted message, before the logger adds its time stamp
    and, where the message lacks one, the final newline. *)
Definition log_Printf (format : string) (a : list string) : M unit :=
  match fmt.doPrintf format a with
  | Some out => emit (EvLog out)
  | None => unmodelled
  end.
Definition log_Println (s : string) : M unit := emit (EvLog (fmt.Sprintln s)).

(** [s.Ping()]. *)
Definition callPing : M (string * option string) := fun w =>
  let '(r, st') := Ping (store w) in
  Some (r, {| resp := resp w; store := st'; cluster := cluster w;
              trace := trace w ++ [EvPing] |}).

(** [CreatePod()]. *)
Definition callCreatePod : M string := fun w =>
  let '(pods, k') := CreatePod (cluster w) in
  Some (pods, {| resp := resp w; store := store w; cluster := k';
                 trace := trace w ++ [EvCreatePod] |}).

(** ** Path canonicalisation of [net/http]

    [path_Clean] is [path.Clean] on rooted paths, by the four rules of its
    documentation: runs of slashes collapse, [.] elements disappear, an
    inner [..] removes the element before it, and a [..] at the root
    disappears. *)
Fixpoint split_slash (cur : string) (s : string) : list string :=
  match s with
  | "" => [cur]
  | String c rest =>
    if Ascii.eqb c "/" then cur :: split_slash "" rest
    else split_slash (cur +:+ String c "") rest
  end.

Definition clean_step (stack : list string) (elem : string) : list string :=
  if String.eqb elem "" then stack
  else if String.eqb elem "." then stack
  else if String.eqb elem ".." then removelast stack
  else stack ++ [elem].

Definition path_Clean (p : string) : string :=
  "/" +:+ String.concat "/" (fold_left clean_step (split_slash "" p) []).

Definition rooted (p : string) : bool :=
  match p with
  | String c _ => Ascii.eqb c "/"
  | "" => false
  end.

(** [cleanPath] of [net/http/server.go]: the canonical form of a request
    path, with a trailing slash kept. *)
Definition cleanPath (p : string) : string :=
  if String.eqb p "" then "/"
  else
    let p := if rooted p then p else "/" +:+ p in
    let np := path_Clean p in
    if ends_with_slash p && negb (String.eqb np "/") then np +:+ "/" else np.

(** The redirect targets this model follows [http.Redirect] on: rooted
    canonical paths made of letters, digits and [/ - _ .], which URL
    parsing, cleaning and escaping all leave as they are. *)
Definition safe_byte (c : ascii) : bool :=
  is_letter c || is_digit c || Ascii.eqb c "/" || Ascii.eqb c "-"
  || Ascii.eqb c "_" || Ascii.eqb c ".".

Fixpoint all_bytes (f : ascii -> bool) (s : string) : bool :=
  match s with
  | "" => true
  | String c rest => f c && all_bytes f rest
  end.

Definition plain_url (url : string) : bool :=
  rooted url && all_bytes safe_byte url && String.eqb (cleanPath url) url.

Definition dquote : string := String (ascii_of_nat 34) "".

(** [http.Redirect(w, r, url, code)]. *)
Definition Redirect (r : Request) (url : string) (code : nat) : M unit :=
  if plain_url url then
    w ← getResp;
    let hadCT := bool_decide (is_Some (HeaderMap w !! "Content-Type")) in
    onResp (HeaderSet "Location" url);;
    when (negb hadCT && (String.eqb (Method r) "GET" || String.eqb (Method r) "HEAD"))
      (onResp (HeaderSet "Content-Type" "text/html; charset=utf-8"));;
    onResp (WriteHeader code);;
    when (negb hadCT && String.eqb (Method r) "GET")
      (Fprintln ("<a href=" +:+ dquote +:+ url +:+ dquote +:+ ">"
                 +:+ statusText code +:+ "</a>." +:+ newline))
  else unmodelled.

(** [http.Error(w, error, code)] and [http.NotFound(w, r)]. *)
Definition Error (error : string) (code : nat) : M unit :=
  onResp (HeaderSet "Content-Type" "text/plain; charset=utf-8");;
  onResp (HeaderSet "X-Content-Type-Options" "nosniff");;
  onResp (WriteHeader code);;
  Fprintln error.

Definition NotFound (r : Request) : M unit :=
  Error "404 page not found" StatusNotFound.

(** ** The handlers of [main.go] *)

Definition Handler : Type := Request -> M unit.

(** RootHandler handles requests to the "/" path.  It will redirect the
    request to /ping with a 303 HTTP header. *)
Definition RootHandler : Handler := fun req =>
  Redirect req "/ping" StatusSeeOther.

(** PingHandler handles request to the "/ping" endpoint.  The storage the
    Go closure holds is the world's [store]. *)
Definition PingHandler : Handler := fun req =>
  '(res, err) ← callPing;
  match err with
  | Some msg =>
    onResp (WriteHeader StatusInternalServerError);;
    Fprintf msg []
  | None =>
    onResp (WriteHeader StatusOK);;
    Fprintln res
  end.

(** VersionHandler handles request to the "/version" endpoint. *)
Definition VersionHandler : Handler := fun req =>
  onResp (WriteHeader StatusOK);;
  Fprintf ("%s v%s" +:+ newline) [Name; Version].

(** The inner loop of PayloadHandler: [for _, val := range values]. *)
Fixpoint rangeValues (key : string) (values : list string) : M unit :=
  match values with
  | [] => mret tt
  | val :: rest =>
    log_Printf ("%s: %s" +:+ newline) [key; val];;
    Fprintf ("%s: %s" +:+ newline) [key; val];;
    rangeValues key rest
  end.

(** The outer loop: [for key, values := range req.Header]. *)
Fixpoint rangeHeader (hdr : list (string * list string)) : M unit :=
  match hdr with
  | [] => mret tt
  | (key, values) :: rest =>
    rangeValues key values;;
    rangeHeader rest
  end.

(** PayloadHandler handles request to the "/payload" endpoint.  It is a
    debug route to dump the complete request incl. method, header and
    body. *)
Definition PayloadHandler : Handler := fun req =>
  let '(body, err) := ReqBody req in
  match err with
  | Some _ => onResp (WriteHeader StatusInternalServerError)
  | None =>
    onResp (WriteHeader StatusOK);;
    log_Printf ("Method: %s" +:+ newline) [Method req];;
    Fprintf ("Method: %s" +:+ newline) [Method req];;
    when (Nat.ltb 0 (length (Header req)))
      (log_Println "Headers:";;
       Fprint ("Headers:" +:+ newline);;
       rangeHeader (Header req));;
    log_Printf "Payload: %s" [body];;
    Fprintf "Payload: %s" [body]
  end.

Definition KubernetesCreateHandler : Handler := fun req =>
  let '(_, err) := ReqBody req in
  match err with
  | Some _ => onResp (WriteHeader StatusInternalServerError)
  | None =>
    pods ← callCreatePod;
    Fprintf "Pods: %s" [pods]
  end.

(** ** The request multiplexer, [http.ServeMux]

    A pattern that ends in a slash names a rooted subtree, any other
    pattern names one path; the longest matching pattern wins.  All
    patterns of this program begin with a slash, so the host-qualified
    lookups of the multiplexer are left out. *)
Record muxEntry := mkMuxEntry {
  h : Handler;
  pattern : string
}.

(** [m] holds every entry by pattern, [es] the entries whose pattern ends
    in a slash, longest first. *)
Record ServeMux := mkServeMux {
  m : gmap string muxEntry;
  es : list muxEntry
}.

Definition NewServeMux : ServeMux := {| m := ∅; es := [] |}.

Fixpoint appendSorted (entries : list muxEntry) (e : muxEntry) : list muxEntry :=
  match entries with
  | [] => [e]
  | x :: rest =>
    if Nat.ltb (String.length (pattern x)) (String.length (pattern e))
    then e :: entries
    else x :: appendSorted rest e
  end.

(** [mux.HandleFunc(pattern, handler)]. *)
Definition HandleFunc (pat : string) (handler : Handler) (mux : ServeMux) : ServeMux :=
  let e := {| h := handler; pattern := pat |} in
  {| m := <[pat := e]> (m mux);
     es := if ends_with_slash pat then appendSorted (es mux) e else es mux |}.

(** [mux.match(path)]: an exact match first, then the longest subtree
    pattern that is a prefix of the path. *)
Definition mux_match (mux : ServeMux) (path : string) : option muxEntry :=
  match m mux !! path with
  | Some v => Some v
  | None => List.find (fun e => HasPrefix path (pattern e)) (es mux)
  end.

Definition NotFoundHandler : Handler := NotFound.

(** [mux.handler(host, path)]. *)
Definition mux_handler (mux : ServeMux) (path : string) : Handler :=
  match mux_match mux path with
  | Some e => h e
  | None => NotFoundHandler
  end.

(** [mux.shouldRedirectRLocked(host, path)]: is [path] unregistered while
    [path/] is registered? *)
Definition shouldRedirect (mux : ServeMux) (path : string) : bool :=
  if bool_decide (is_Some (m mux !! path)) then false
  else if String.eqb path "" then false
  else if bool_decide (is_Some (m mux !! (path +:+ "/")))
       then negb (ends_with_slash path)
       else false.

(** [u.String()] for a URL that has only a path and a raw query. *)
Definition urlString (path query : string) : string :=
  if String.eqb query "" then path else path +:+ "?" +:+ query.

Definition RedirectHandler (url : string) (code : nat) : Handler := fun req =>
  Redirect req url code.

(** [mux.Handler(r)]: CONNECT requests keep their path; every other
    request is sent to its canonical path first. *)
Definition mux_Handler (mux : ServeMux) (r : Request) : Handler :=
  if String.eqb (Method r) "CONNECT" then
    if shouldRedirect mux (Path r)
    then RedirectHandler (urlString (Path r +:+ "/") (RawQuery r)) StatusMovedPermanently
    else mux_handler mux (Path r)
  else
    let path := cleanPath (Path r) in
    if shouldRedirect mux path
    then RedirectHandler (urlString (path +:+ "/") (RawQuery r)) StatusMovedPermanently
    else if negb (String.eqb path (Path r))
    then RedirectHandler (urlString path (RawQuery r)) StatusMovedPermanently
    else mux_handler mux (Path r).

Definition ProtoAtLeast (r : Request) (major minor : nat) : bool :=
  Nat.ltb major (ProtoMajor r)
  || (Nat.eqb (ProtoMajor r) major && Nat.leb minor (ProtoMinor r)).

(** [mux.ServeHTTP(w, r)]. *)
Definition ServeHTTP (mux : ServeMux) : Handler := fun r =>
  if String.eqb (RequestURI r) "*" then
    when (ProtoAtLeast r 1 1) (onResp (HeaderSet "Connection" "close"));;
    onResp (WriteHeader StatusBadRequest)
  else mux_Handler mux r r.

(** ** [main]: the route table

    The five registrations of [main], in program order.  The logging
    wrapper around the multiplexer only observes the exchange and is not
    part of the model. *)
Definition s : ServeMux :=
  HandleFunc "/kubecreate" KubernetesCreateHandler
    (HandleFunc "/payload" PayloadHandler
       (HandleFunc "/version" VersionHandler
          (HandleFunc "/ping" PingHandler
             (HandleFunc "/" RootHandler NewServeMux)))).

(** A world whose response writer is untouched. *)
Definition freshWorld (st : St) (k : K) : World :=
  {| resp := NewRecorder; store := st; cluster := k; trace := [] |}.

(** One exchange: the request is served on a fresh response writer. *)
Definition serve (req : Request) (st : St) (k : K) : option (unit * World) :=
  ServeHTTP s req (freshWorld st k).

(** The response of an exchange. *)
Definition response (req : Request) (st : St) (k : K) : option ResponseWriter :=
  (fun out => resp (snd out)) <$> serve req st k.

End Server.

(** ** [EnvOrDefault]

    [os.Getenv] returns the empty string for a variable that is not set;
    the environment is a finite map from names to values. *)
Definition Getenv (environ : gmap string string) (key : string) : string :=
  default "" (environ !! key).

(** EnvOrDefault will read env from the environment.  If the environment
    variable is not set in the environment fallback will be returned. *)
Definition EnvOrDefault (environ : gmap string string) (env fallback : string) : string :=
  let value := fallback in
  let v := Getenv environ env in
  if negb (String.eqb v "") then v else value.

(** ** Command-line flags: package [flag], on string flags

    [F] holds the variables the declared flags point to; [declared name]
    says whether a flag of that name was declared and [set name value]
    assigns to its variable. *)
Module flag.

Inductive Error :=
  | BadSyntax (arg : string)
  | NotDefined (name : string)
  | NeedsArgument (name : string)
  | ErrHelp.

(** How [parseOne] reads its first argument. *)
Inductive Shape :=
  | NonFlag
  | Terminator
  | Flag (name : string).

(** An argument shorter than two bytes or not beginning with a minus sign
    ends the flags; so does [--], which is consumed; one or two minus
    signs are stripped from anything else. *)
Definition shape (arg : string) : Shape :=
  match arg with
  | String c0 (String c1 tail) =>
    if negb (Ascii.eqb c0 "-") then NonFlag
    else if Ascii.eqb c1 "-" then
      match tail with
      | "" => Terminator
      | String _ _ => Flag tail
      end
    else Flag (String c1 tail)
  | _ => NonFlag
  end.

(** [len(name) == 0 || name[0] == '-' || name[0] == '=']. *)
Definition badName (name : string) : bool :=
  match name with
  | "" => true
  | String c _ => Ascii.eqb c "-" || Ascii.eqb c "="
  end.

(** The text before and after the first equals sign of [s], if any. *)
Fixpoint cutEquals (s : string) : option (string * string) :=
  match s with
  | "" => None
  | String c rest =>
    if Ascii.eqb c "=" then Some ("", rest)
    else match cutEquals rest with
         | Some (before, after) => Some (String c before, after)
         | None => None
         end
  end.

(** The name and the value of [name=value]; the equals sign is looked for
    from the second byte on. *)
Definition splitValue (name : string) : string * option string :=
  match name with
  | "" => ("", None)
  | String c rest =>
    match cutEquals rest with
    | Some (before, value) => (String c before, Some value)
    | None => (name, None)
    end
  end.

(** [f.Parse(arguments)]: [parseOne] repeated until an argument ends the
    flags or an error stops the parse.  The result is the variables as
    the flags left them, with the arguments that were not consumed. *)
Fixpoint Parse {F : Type} (declared : string -> bool)
    (set : string -> string -> F -> F)
    (vars : F) (args : list string) : Error + (F * list string) :=
  match args with
  | [] => inr (vars, [])
  | arg :: rest =>
    match shape arg with
    | NonFlag => inr (vars, args)
    | Terminator => inr (vars, rest)
    | Flag name =>
      if badName name then inl (BadSyntax arg)
      else
        let '(name, value) := splitValue name in
        if negb (declared name) then
          if String.eqb name "help" || String.eqb name "h"
          then inl ErrHelp
          else inl (NotDefined name)
        else
          match value with
          | Some v => Parse declared set (set name v vars) rest
          | None =>
            match rest with
            | v :: rest' => Parse declared set (set name v vars) rest'
            | [] => inl (NeedsArgument name)
            end
          end
    end
  end.

End flag.

(** ** [main]: the configuration

    The two string flags of [main]; each starts at the value of its
    environment variable, or at the built-in address. *)
Record Flags := mkFlags {
  listenFlag : string;
  redisFlag : string
}.

Definition isDeclared (name : string) : bool :=
  String.eqb name "listen" || String.eqb name "redis".

Definition setFlag (name value : string) (f : Flags) : Flags :=
  if String.eqb name "listen"
  then {| listenFlag := value; redisFlag := redisFlag f |}
  else if String.eqb name "redis"
  then {| listenFlag := listenFlag f; redisFlag := value |}
  else f.

Definition declaredFlags (environ : gmap string string) : Flags :=
  {| listenFlag := EnvOrDefault environ "SIMPLE_WEBSERVER_LISTEN" ":8082";
     redisFlag := EnvOrDefault environ "SIMPLE_WEBSERVER_REDIS" ":6379" |}.

(** [main] up to the point where it serves: the flags after
    [flag.Parse()], that is the address handed to [NewRedisStorage] and
    the address handed to [http.ListenAndServe]; an error of the parse
    ends the process instead. *)
Definition main (environ : gmap string string) (args : list string)
    : flag.Error + Flags :=
  match flag.Parse isDeclared setFlag (declaredFlags environ) args with
  | inl e => inl e
  | inr (flags, _) => inr flags
  end.

(** ** Command lines that set the flags of [main]

    A setting names one of the two flags and gives it a value, written
    with one or two dashes, and with the value joined to the name by an
    equals sign or in the argument after the name. *)
Inductive FlagName := Listen | Redis.

Definition nameOf (n : FlagName) : string :=
  match n with
  | Listen => "listen"
  | Redis => "redis"
  end.

Record Setting := mkSetting {
  flagOf : FlagName;
  twoDashes : bool;
  joined : bool;
  valueOf : string
}.

(** The arguments that spell a setting. *)
Definition render (x : Setting) : list string :=
  let flag := (if twoDashes x then "--" else "-") +:+ nameOf (flagOf x) in
  if joined x then [flag +:+ "=" +:+ valueOf x] else [flag; valueOf x].

(** The command line that spells the settings one after the other. *)
Definition argv (settings : list Setting) : list string :=
  flat_map render settings.

Definition applySetting (f : Flags) (x : Setting) : Flags :=
  setFlag (nameOf (flagOf x)) (valueOf x) f.

(** The value of the last setting of the flag [n], if there is one. *)
Fixpoint lastValue (n : FlagName) (settings : list Setting) : option string :=
  match settings with
  | [] => None
  | x :: rest =>
    match lastValue n rest with
    | Some v => Some v
    | None =>
      match n, flagOf x with
      | Listen, Listen | Redis, Redis => Some (valueOf x)
      | _, _ => None
      end
    end
  end.

(** ** Vocabulary of the statements *)

(** A request whose target is the path [path]; the asterisk form of the
    request target ([OPTIONS *]) names no path. *)
Definition requestTo (path : string) (req : Request) : Prop :=
  RequestURI req <> "*" /\ Path req = path.

(** The lines the two loops of PayloadHandler write for a header map: one
    line per value, the values of a key in their order. *)
Definition valueLines (key : string) (values : list string) : list string :=
  map (fun val => key +:+ ": " +:+ val +:+ newline) values.

Definition headerLines (hdr : list (string * list string)) : list string :=
  flat_map (fun kv => valueLines (fst kv) (snd kv)) hdr.

(** Successive writes to a response writer. *)
Definition writeAll (chunks : list string) (w : ResponseWriter) : ResponseWriter :=
  fold_left (fun acc chunk => Write chunk acc) chunks w.

(** The messages a trace logged, in order. *)
Definition logged (t : list Event) : list string :=
  flat_map (fun e => match e with EvLog msg => [msg] | _ => [] end) t.

(** The chunks PayloadHandler writes for a request whose body it read. *)
Definition payloadChunks (req : Request) (data : string) : list string :=
  ("Method: " +:+ Method req +:+ newline)
  :: (if Nat.ltb 0 (length (Header req))
      then ("Headers:" +:+ newline) :: headerLines (Header req)
      else [])
  ++ ["Payload: " +:+ data].

Section Exchanges.

Context {St K : Type} `{!Storage St}.
Variable CreatePod : K -> string * K.

(** An exchange that left the collaborators alone. *)
Definition quiet (st : St) (k : K) (w : @World St K) : Prop :=
  store w = st /\ cluster w = k /\ trace w = [].

(** The ways an exchange can go: who answered the request [req], with
    which status, and what became of the storage [st] and the cluster
    [k] in the world [w] the exchange ends in. *)
Inductive Exchange (req : Request) (st : St) (k : K) (w : @World St K) : Prop :=
  | ExAsterisk :
      RequestURI req = "*" ->
      Code (resp w) = 400 -> quiet st k w ->
      Exchange req st k w
  | ExMoved :
      RequestURI req <> "*" -> Method req <> "CONNECT" ->
      cleanPath (Path req) <> Path req ->
      Code (resp w) = 301 -> quiet st k w ->
      Exchange req st k w
  | ExNotFound :
      RequestURI req <> "*" -> Method req = "CONNECT" ->
      rooted (Path req) = false ->
      Code (resp w) = 404 -> quiet st k w ->
      Exchange req st k w
  | ExRoot :
      RequestURI req <> "*" -> rooted (Path req) = true ->
      ~ In (Path req) ["/ping"; "/version"; "/payload"; "/kubecreate"] ->
      Code (resp w) = 303 -> quiet st k w ->
      Exchange req st k w
  | ExPing :
      RequestURI req <> "*" -> Path req = "/ping" ->
      Code (resp w) = match snd (fst (Ping st)) with
                      | Some _ => 500
                      | None => 200
                      end ->
      store w = snd (Ping st) -> cluster w = k -> trace w = [EvPing] ->
      Exchange req st k w
  | ExVersion :
      RequestURI req <> "*" -> Path req = "/version" ->
      Code (resp w) = 200 -> quiet st k w ->
      Exchange req st k w
  | ExPayload :
      RequestURI req <> "*" -> Path req = "/payload" ->
      Code (resp w) = match snd (ReqBody req) with
                      | Some _ => 500
                      | None => 200
                      end ->
      store w = st -> cluster w = k ->
      trace w = map EvLog (logged (trace w)) ->
      Exchange req st k w
  | ExKubecreate :
      RequestURI req <> "*" -> Path req = "/kubecreate" ->
      Code (resp w) = match snd (ReqBody req) with
                      | Some _ => 500
                      | None => 200
                      end ->
      store w = st ->
      cluster w = match snd (ReqBody req) with
                  | Some _ => k
                  | None => snd (CreatePod k)
                  end ->
      trace w = match snd (ReqBody req) with
                | Some _ => []
                | None => [EvCreatePod]
                end ->
      Exchange req st k w.

End Exchanges.

(** ** Sample collaborators *)

(** A storage that answers every probe with the same reply. *)
Definition FixedStorage : Type := string * option string.
Global Instance FixedStorage_Storage : Storage FixedStorage :=
  fun st => (st, st).

Definition pong : FixedStorage := ("PONG", None).
Definition failing (msg : string) : FixedStorage := ("", Some msg).

(** A storage that fails its first [n] probes and answers PONG after. *)
Global Instance nat_Storage : Storage nat := fun n =>
  match n with
  | O => (("PONG", None), O)
  | S n' => (("", Some "connection refused"), n')
  end.

(** A cluster that numbers the pods it has created. *)
Definition countingCreatePod (n : nat) : string * nat :=
  (if Nat.eqb n 0 then "first" else "again", S n).

Definition get (path : string) : Request :=
  {| Method := "GET"; RequestURI := path; ProtoMajor := 1; ProtoMinor := 1;
     Path := path; RawQuery := ""; Header := []; ReqBody := ("", None) |}.

(** A CONNECT request: its target is an authority and its path is empty. *)
Definition connect (authority : string) : Request :=
  {| Method := "CONNECT"; RequestURI := authority; ProtoMajor := 1;
     ProtoMinor := 1; Path := ""; RawQuery := ""; Header := [];
     ReqBody := ("", None) |}.

Definition post (path : string) (hdr : list (string * list string))
    (body : string * option string) : Request :=
  {| Method := "POST"; RequestURI := path; ProtoMajor := 1; ProtoMinor := 1;
     Path := path; RawQuery := ""; Header := hdr; ReqBody := body |}.

(** * Properties *)

Section Properties.

Context {St K : Type} `{!Storage St} (CreatePod : K -> string * K).

(** ** The response writer *)

Lemma wroteHeader_Write data w : wroteHeader (Write data w) = true.
Proof.
  unfold Write, WriteHeader.
  destruct (wroteHeader w) eqn:E; simpl; rewrite ?E; reflexivity.
Qed.

Lemma Code_Write data w : wroteHeader w = true -> Code (Write data w) = Code w.
Proof. unfold Write. intros ->. reflexivity. Qed.

Lemma Body_Write data w : Body (Write data w) = Body w +:+ data.
Proof.
  unfold Write, WriteHeader.
  destruct (wroteHeader w) eqn:E; simpl; rewrite ?E; reflexivity.
Qed.

Lemma HeaderMap_Write data w : HeaderMap (Write data w) = HeaderMap w.
Proof.
  unfold Write, WriteHeader.
  destruct (wroteHeader w) eqn:E; simpl; rewrite ?E; reflexivity.
Qed.

Lemma append_assoc (a b c : string) : (a +:+ b) +:+ c = a +:+ (b +:+ c).
Proof.
  induction a as [|x a IH]; [reflexivity |].
  change (String x ((a +:+ b) +:+ c) = String x (a +:+ b +:+ c)).
  now rewrite IH.
Qed.

Lemma append_empty_r (a : string) : a +:+ "" = a.
Proof.
  induction a as [|x a IH]; [reflexivity |].
  change (String x (a +:+ "") = String x a). now rewrite IH.
Qed.

Lemma concat_cons (c : string) (chunks : list string) :
  String.concat "" (c :: chunks) = c +:+ String.concat "" chunks.
Proof.
  destruct chunks; [apply eq_sym, append_empty_r | reflexivity].
Qed.

Lemma writeAll_sent chunks w :
  wroteHeader w = true ->
  wroteHeader (writeAll chunks w) = true
  /\ Code (writeAll chunks w) = Code w
  /\ HeaderMap (writeAll chunks w) = HeaderMap w
  /\ Body (writeAll chunks w) = Body w +:+ String.concat "" chunks.
Proof.
  revert w. induction chunks as [|c chunks IH]; intros w Hw.
  - simpl. rewrite append_empty_r. auto.
  - destruct (IH (Write c w) (wroteHeader_Write c w)) as (H1 & H2 & H3 & H4).
    rewrite concat_cons. change (writeAll (c :: chunks) w) with (writeAll chunks (Write c w)).
    rewrite H1, H2, H3, H4.
    rewrite Code_Write, HeaderMap_Write, Body_Write by exact Hw.
    rewrite append_assoc. auto.
Qed.

(** ** The format interpreter *)

(** A format without a percent sign is written as it stands. *)
Lemma doPrintf_no_percent (format : string) :
  contains_byte "%" format = false -> fmt.doPrintf format [] = Some format.
Proof.
  induction format as [|c rest IH]; [reflexivity |].
  cbn [contains_byte fmt.doPrintf].
  destruct (Ascii.eqb c "%"); [discriminate |].
  intros Hrest. rewrite (IH Hrest). reflexivity.
Qed.

(** ** Dispatch *)

(** A request whose path is registered as it stands reaches the handler
    registered for it. *)
Lemma ServeHTTP_exact (mux : @ServeMux St K) req e :
  RequestURI req <> "*" ->
  m mux !! Path req = Some e ->
  Method req = "CONNECT" \/ cleanPath (Path req) = Path req ->
  ServeHTTP mux req = h e req.
Proof.
  intros Huri Hm Hc. unfold ServeHTTP.
  apply String.eqb_neq in Huri. rewrite Huri.
  assert (Hs : shouldRedirect mux (Path req) = false).
  { unfold shouldRedirect. rewrite Hm.
    rewrite bool_decide_eq_true_2 by eauto. reflexivity. }
  assert (Hh : mux_handler mux (Path req) = h e).
  { unfold mux_handler, mux_match. rewrite Hm. reflexivity. }
  unfold mux_Handler.
  destruct (String.eqb (Method req) "CONNECT") eqn:Em.
  - rewrite Hs, Hh. reflexivity.
  - destruct Hc as [Hc | Hc].
    + apply String.eqb_eq in Hc. congruence.
    + rewrite Hc, Hs, String.eqb_refl. simpl. rewrite Hh. reflexivity.
Qed.

(** The exact-match table of [main]'s multiplexer. *)
Lemma s_lookup (p : string) :
  m (s CreatePod) !! p =
    if decide ("/kubecreate" = p)
    then Some {| h := KubernetesCreateHandler CreatePod; pattern := "/kubecreate" |}
    else if decide ("/payload" = p)
    then Some {| h := PayloadHandler; pattern := "/payload" |}
    else if decide ("/version" = p)
    then Some {| h := VersionHandler; pattern := "/version" |}
    else if decide ("/ping" = p)
    then Some {| h := PingHandler; pattern := "/ping" |}
    else if decide ("/" = p)
    then Some {| h := RootHandler; pattern := "/" |}
    else None.
Proof.
  unfold s, HandleFunc. simpl. rewrite !lookup_insert.
  repeat case_decide; reflexivity.
Qed.

(** The only subtree pattern is the root, which every rooted path matches. *)
Lemma s_es : es (s CreatePod) = [{| h := RootHandler; pattern := "/" |}].
Proof. reflexivity. Qed.

Lemma HasPrefix_slash (p : string) : HasPrefix p "/" = rooted p.
Proof.
  destruct p as [|c p]; [reflexivity |].
  cbn [HasPrefix rooted]. destruct p; apply andb_true_r.
Qed.

Ltac dispatch_to e Huri Hpath :=
  unfold response, serve;
  rewrite (ServeHTTP_exact _ _ e Huri);
  [ cbn [h] | rewrite Hpath; reflexivity | right; rewrite Hpath; reflexivity ].

Ltac run := unfold mbind, M_bind, mret, M_ret, onResp, freshWorld; cbn.


(** ** The routes *)

(** What RootHandler sends on an untouched response writer. *)
Lemma RootHandler_fresh (req : Request) (st : St) (k : K) :
  exists w, RootHandler req (freshWorld st k) = Some (tt, w)
    /\ Code (resp w) = 303
    /\ HeaderGet "Location" (resp w) = Some "/ping".
Proof.
  unfold RootHandler, Redirect.
  change (plain_url "/ping") with true. cbv iota.
  run.
  destruct (String.eqb (Method req) "GET"); run;
    [| destruct (String.eqb (Method req) "HEAD"); run ];
    (eexists; split; [reflexivity | split; reflexivity]).
Qed.

(** C4. Every request to [/], whatever its method, headers and body, is
    answered with status 303 (See Other) and the Location [/ping]. *)
Theorem root_redirects_to_ping (req : Request) (st : St) (k : K) :
  requestTo "/" req ->
  exists w, response CreatePod req st k = Some w
    /\ Code w = 303
    /\ HeaderGet "Location" w = Some "/ping".
Proof.
  intros [Huri Hpath].
  dispatch_to {| h := @RootHandler St K; pattern := "/" |} Huri Hpath.
  destruct (RootHandler_fresh req st k) as (w & -> & Hcode & Hloc).
  exists (resp w). auto.
Qed.

(** C2. When the probe returns the result [r] and no error, a request to
    [/ping] is answered with status 200 and the body [r] followed by
    exactly one newline. *)
Theorem ping_success_response (req : Request) (st st' : St) (k : K) (r : string) :
  requestTo "/ping" req ->
  Ping st = ((r, None), st') ->
  exists w, response CreatePod req st k = Some w
    /\ Code w = 200
    /\ Body w = r +:+ newline.
Proof.
  intros [Huri Hpath] Hping.
  dispatch_to {| h := @PingHandler St K _; pattern := "/ping" |} Huri Hpath.
  unfold PingHandler, callPing. run. rewrite Hping. run.
  eexists; split; [reflexivity | split; reflexivity].
Qed.

(** X1. Where the verbatim copy of the error message does hold: when the
    probe of a request to [/ping] returns an error whose message has no
    percent sign, the response has status 500 and the message, byte for
    byte, as its body; the result string of the failed probe is not sent. *)
Lemma ping_error_without_percent (req : Request) (st st' : St) (k : K)
    (res msg : string) :
  requestTo "/ping" req ->
  Ping st = ((res, Some msg), st') ->
  contains_byte "%" msg = false ->
  exists w, response CreatePod req st k = Some w
    /\ Code w = 500
    /\ Body w = msg.
Proof.
  intros [Huri Hpath] Hping Hmsg.
  dispatch_to {| h := @PingHandler St K _; pattern := "/ping" |} Huri Hpath.
  unfold PingHandler, callPing. run. rewrite Hping. run.
  unfold Fprintf. rewrite (doPrintf_no_percent msg Hmsg). run.
  eexists; split; [reflexivity | split; reflexivity].
Qed.

(** C5 (amended). Every request to [/version], whatever its method,
    headers and body, is answered with status 200 and the fixed body made
    of the application's name, [" v"], its version and one newline. *)
Theorem version_response (req : Request) (st : St) (k : K) :
  requestTo "/version" req ->
  response CreatePod req st k =
    Some {| Code := 200; HeaderMap := ∅;
            Body := Name +:+ " v" +:+ Version +:+ newline;
            wroteHeader := true |}.
Proof.
  intros [Huri Hpath].
  dispatch_to {| h := @VersionHandler St K; pattern := "/version" |} Huri Hpath.
  reflexivity.
Qed.


(** ** The request dump *)

Lemma doPrintf_header_line (key val : string) :
  fmt.doPrintf ("%s: %s" +:+ newline) [key; val]
  = Some (key +:+ ": " +:+ val +:+ newline).
Proof. reflexivity. Qed.

Lemma doPrintf_method_line (method : string) :
  fmt.doPrintf ("Method: %s" +:+ newline) [method]
  = Some ("Method: " +:+ method +:+ newline).
Proof. reflexivity. Qed.

Lemma doPrintf_payload_line (data : string) :
  fmt.doPrintf "Payload: %s" [data] = Some ("Payload: " +:+ data).
Proof.
  change (fmt.doPrintf "Payload: %s" [data])
    with (Some ("Payload: " +:+ (data +:+ ""))).
  rewrite append_empty_r. reflexivity.
Qed.

Lemma doPrintf_pods (pods : string) :
  fmt.doPrintf "Pods: %s" [pods] = Some ("Pods: " +:+ pods).
Proof.
  change (fmt.doPrintf "Pods: %s" [pods])
    with (Some ("Pods: " +:+ (pods +:+ ""))).
  rewrite append_empty_r. reflexivity.
Qed.

Lemma writeAll_app (a b : list string) (w : ResponseWriter) :
  writeAll (a ++ b) w = writeAll b (writeAll a w).
Proof. apply fold_left_app. Qed.

(** The inner loop writes and logs the lines of one key. *)
Lemma rangeValues_run (key : string) (values : list string) (w : @World St K) :
  rangeValues key values w =
    Some (tt, {| resp := writeAll (valueLines key values) (resp w);
                 store := store w; cluster := cluster w;
                 trace := trace w ++ map EvLog (valueLines key values) |}).
Proof.
  revert w. induction values as [|val rest IH]; intros w.
  - destruct w. cbn. rewrite app_nil_r. reflexivity.
  - cbn [rangeValues]. unfold log_Printf, Fprintf.
    rewrite doPrintf_header_line. run. rewrite IH. cbn.
    rewrite <- app_assoc. reflexivity.
Qed.

(** The outer loop writes and logs the lines of every key. *)
Lemma rangeHeader_run (hdr : list (string * list string)) (w : @World St K) :
  rangeHeader hdr w =
    Some (tt, {| resp := writeAll (headerLines hdr) (resp w);
                 store := store w; cluster := cluster w;
                 trace := trace w ++ map EvLog (headerLines hdr) |}).
Proof.
  revert w. induction hdr as [|[key values] rest IH]; intros w.
  - destruct w. cbn. rewrite app_nil_r. reflexivity.
  - cbn [rangeHeader]. unfold mbind, M_bind.
    rewrite rangeValues_run, IH. cbn.
    unfold headerLines. cbn [flat_map fst snd].
    rewrite writeAll_app, map_app, app_assoc. reflexivity.
Qed.

(** One line per header value. *)
Lemma headerLines_length (hdr : list (string * list string)) :
  length (headerLines hdr) = list_sum (map (fun kv => length (snd kv)) hdr).
Proof.
  induction hdr as [|[key values] rest IH]; [reflexivity |].
  unfold headerLines in *. cbn [flat_map map list_sum fst snd].
  rewrite length_app, IH. unfold valueLines. rewrite length_map. reflexivity.
Qed.

(** C6. A request to [/payload] whose body is read to its end is answered
    with status 200 and a body that begins with the method line, goes on
    (under the heading the handler prints when the header map is not
    empty) with one line per header value, every value of a key on a line
    of its own and in its order, and ends with the line made of
    [Payload: ] and the bytes of the request body. *)
Theorem payload_dump_layout (req : Request) (st : St) (k : K) (data : string) :
  requestTo "/payload" req ->
  ReqBody req = (data, None) ->
  exists w, response CreatePod req st k = Some w
    /\ Code w = 200
    /\ Body w =
         ("Method: " +:+ Method req +:+ newline)
         +:+ match Header req with
             | [] => ""
             | _ :: _ => "Headers:" +:+ newline
             end
         +:+ String.concat "" (headerLines (Header req))
         +:+ ("Payload: " +:+ data)
    /\ length (headerLines (Header req))
       = list_sum (map (fun kv => length (snd kv)) (Header req)).
Proof.
  intros [Huri Hpath] Hbody.
  dispatch_to {| h := @PayloadHandler St K; pattern := "/payload" |} Huri Hpath.
  unfold PayloadHandler. rewrite Hbody.
  unfold log_Printf, log_Println, Fprintf, Fprint.
  rewrite doPrintf_method_line, doPrintf_payload_line.
  assert (Hhead : match Header req with
                  | [] => ""
                  | _ :: _ => "Headers:" +:+ newline
                  end
                  = if Nat.ltb 0 (length (Header req))
                    then "Headers:" +:+ newline else "")
    by (destruct (Header req); reflexivity).
  rewrite Hhead. clear Hhead.
  unfold when.
  destruct (Nat.ltb 0 (length (Header req))) eqn:Hlen.
  - run. rewrite rangeHeader_run. run.
    eexists. split; [reflexivity |].
    match goal with
    | |- context [writeAll ?ls ?w0] =>
      destruct (writeAll_sent ls w0 (wroteHeader_Write _ _)) as (Hs & Hc & _ & Hb)
    end.
    split; [| split].
    + rewrite Code_Write by exact Hs. rewrite Hc.
      rewrite Code_Write by apply wroteHeader_Write. reflexivity.
    + rewrite Body_Write, Hb, Body_Write, Body_Write. cbn [Body].
      rewrite !append_assoc. reflexivity.
    + apply headerLines_length.
  - run. eexists. split; [reflexivity |].
    assert (Hnil : Header req = [])
      by (destruct (Header req); [reflexivity | discriminate]).
    rewrite Hnil. split; [reflexivity |]. split; reflexivity.
Qed.


(** ** Body-read failures and pod creation *)

(** C7. A request to [/payload] or to [/kubecreate] whose body cannot be
    read to its end is answered with status 500 and an empty body; nothing
    of the failure is written, nothing is logged and no pod is created. *)
Theorem body_read_failure_500 (req : Request) (st : St) (k : K)
    (data msg : string) :
  RequestURI req <> "*" ->
  Path req = "/payload" \/ Path req = "/kubecreate" ->
  ReqBody req = (data, Some msg) ->
  serve CreatePod req st k =
    Some (tt, {| resp := {| Code := 500; HeaderMap := ∅; Body := "";
                            wroteHeader := true |};
                 store := st; cluster := k; trace := [] |}).
Proof.
  intros Huri [Hpath | Hpath] Hbody; unfold serve.
  - rewrite (ServeHTTP_exact _ _ {| h := @PayloadHandler St K; pattern := "/payload" |} Huri);
      [| rewrite Hpath; reflexivity | right; rewrite Hpath; reflexivity].
    cbn [h]. unfold PayloadHandler. rewrite Hbody. reflexivity.
  - rewrite (ServeHTTP_exact _ _
               {| h := KubernetesCreateHandler CreatePod; pattern := "/kubecreate" |} Huri);
      [| rewrite Hpath; reflexivity | right; rewrite Hpath; reflexivity].
    cbn [h]. unfold KubernetesCreateHandler. rewrite Hbody. reflexivity.
Qed.

(** C8. A request to [/kubecreate] whose body is read to its end makes
    the handler call [CreatePod] exactly once and answers with the default
    status 200 and the text the call returned, after [Pods: ].  The
    response is built from that text alone: no outcome of the call changes
    the status or adds anything to the body. *)
Theorem kubecreate_response (req : Request) (st : St) (k : K) (data : string) :
  requestTo "/kubecreate" req ->
  ReqBody req = (data, None) ->
  serve CreatePod req st k =
    Some (tt, {| resp := {| Code := 200; HeaderMap := ∅;
                            Body := "Pods: " +:+ fst (CreatePod k);
                            wroteHeader := true |};
                 store := st;
                 cluster := snd (CreatePod k);
                 trace := [EvCreatePod] |})
  /\ (forall w, serve CreatePod req st k = Some (tt, w) ->
        count_occ Event_eq_dec (trace w) EvCreatePod = 1).
Proof.
  intros [Huri Hpath] Hbody.
  assert (Hrun : serve CreatePod req st k =
    Some (tt, {| resp := {| Code := 200; HeaderMap := ∅;
                            Body := "Pods: " +:+ fst (CreatePod k);
                            wroteHeader := true |};
                 store := st;
                 cluster := snd (CreatePod k);
                 trace := [EvCreatePod] |})).
  { unfold serve.
    rewrite (ServeHTTP_exact _ _
               {| h := KubernetesCreateHandler CreatePod; pattern := "/kubecreate" |} Huri);
      [| rewrite Hpath; reflexivity | right; rewrite Hpath; reflexivity].
    cbn [h]. unfold KubernetesCreateHandler. rewrite Hbody.
    unfold callCreatePod, mbind, M_bind, freshWorld. cbn [cluster].
    destruct (CreatePod k) as [pods k']. unfold Fprintf.
    rewrite doPrintf_pods. reflexivity. }
  split; [exact Hrun |].
  intros w Hw. rewrite Hrun in Hw. injection Hw as <-. reflexivity.
Qed.

(** ** Repeated requests *)

(** The response to a request for [/ping] is a function of the request and
    of what the probe returned. *)
Lemma ping_response_determined (req : Request) (st1 st2 : St) (k1 k2 : K) :
  Path req = "/ping" ->
  fst (Ping st1) = fst (Ping st2) ->
  response CreatePod req st1 k1 = response CreatePod req st2 k2.
Proof.
  intros Hpath Hsame. unfold response, serve, ServeHTTP.
  destruct (String.eqb (RequestURI req) "*");
    [destruct (ProtoAtLeast req 1 1); reflexivity |].
  unfold mux_Handler. rewrite Hpath.
  change (cleanPath "/ping") with "/ping".
  change (shouldRedirect (s CreatePod) "/ping") with false.
  change (mux_handler (s CreatePod) "/ping") with (@PingHandler St K _).
  change (negb (String.eqb "/ping" "/ping")) with false.
  assert (Hrun : (fun out : unit * World => resp (snd out)) <$> PingHandler req (freshWorld st1 k1)
               = (fun out : unit * World => resp (snd out)) <$> PingHandler req (freshWorld st2 k2)).
  { unfold PingHandler, callPing. run.
    destruct (Ping st1) as [[res1 err1] st1'], (Ping st2) as [[res2 err2] st2'].
    cbn in Hsame. injection Hsame as -> ->.
    destruct err2 as [msg |]; run; [| reflexivity].
    unfold Fprintf. destruct (fmt.doPrintf msg []); reflexivity. }
  destruct (String.eqb (Method req) "CONNECT"); exact Hrun.
Qed.

(** C9. Two exchanges of the same request for [/version] give the same
    status and body; so do two exchanges of the same request for [/ping]
    when the probe returns the same result in both. *)
Theorem repeated_requests_identical (req : Request) (st1 st2 : St) (k1 k2 : K) :
  (Path req = "/version" ->
     exists w, response CreatePod req st1 k1 = Some w
            /\ response CreatePod req st2 k2 = Some w)
  /\ (Path req = "/ping" ->
      fst (Ping st1) = fst (Ping st2) ->
      forall w, response CreatePod req st1 k1 = Some w ->
                response CreatePod req st2 k2 = Some w).
Proof.
  split.
  - intros Hpath. unfold response, serve, ServeHTTP.
    destruct (String.eqb (RequestURI req) "*").
    + destruct (ProtoAtLeast req 1 1); eexists; split; reflexivity.
    + unfold mux_Handler. rewrite Hpath.
      change (cleanPath "/version") with "/version".
      change (shouldRedirect (s CreatePod) "/version") with false.
      change (mux_handler (s CreatePod) "/version") with (@VersionHandler St K).
      change (negb (String.eqb "/version" "/version")) with false.
      destruct (String.eqb (Method req) "CONNECT"); eexists; split; reflexivity.
  - intros Hpath Hsame w Hw.
    rewrite <- (ping_response_determined req st1 st2 k1 k2 Hpath Hsame).
    exact Hw.
Qed.


(** ** Paths outside the exact routes *)

Lemma ends_with_slash_app (p : string) : ends_with_slash (p +:+ "/") = true.
Proof.
  induction p as [|c p IH]; [reflexivity |].
  change (String c p +:+ "/") with (String c (p +:+ "/")).
  destruct p as [|d p]; [reflexivity | exact IH].
Qed.

(** No registered pattern of [main] asks for the redirect to a path with a
    slash added. *)
Lemma s_shouldRedirect (p : string) : shouldRedirect (s CreatePod) p = false.
Proof.
  unfold shouldRedirect.
  destruct (bool_decide (is_Some (m (s CreatePod) !! p))); [reflexivity |].
  destruct (String.eqb p "") eqn:Hempty; [reflexivity |].
  rewrite (s_lookup (p +:+ "/")).
  repeat case_decide;
    try match goal with
        | H : _ = p +:+ "/" |- _ =>
          apply (f_equal ends_with_slash) in H;
          rewrite ends_with_slash_app in H; discriminate H
        end.
  - destruct p as [|c p]; [cbn in Hempty; discriminate Hempty |].
    match goal with
    | H : "/" = _ |- _ =>
      change (String c p +:+ "/") with (String c (p +:+ "/")) in H;
      injection H as _ H; destruct p; cbv in H; discriminate H
    end.
  - rewrite bool_decide_eq_false_2; [reflexivity |].
    intros [e He]. discriminate He.
Qed.

(** The root pattern names the whole tree: a rooted path that is not one
    of the four exact routes is handled by RootHandler. *)
Lemma s_handler_root (p : string) :
  rooted p = true ->
  ~ In p ["/ping"; "/version"; "/payload"; "/kubecreate"] ->
  mux_handler (s CreatePod) p = RootHandler.
Proof.
  intros Hrooted Hnot. unfold mux_handler, mux_match.
  rewrite s_lookup.
  repeat case_decide; subst;
    try (exfalso; apply Hnot; simpl; tauto); try reflexivity.
  rewrite s_es. cbn [List.find pattern].
  rewrite HasPrefix_slash, Hrooted. reflexivity.
Qed.

(** The not-found handler is left to the paths that do not begin with a
    slash. *)
Lemma s_match_none (p : string) :
  mux_match (s CreatePod) p = None <-> rooted p = false.
Proof.
  unfold mux_match. rewrite s_lookup, s_es. cbn [List.find pattern].
  rewrite HasPrefix_slash.
  repeat case_decide; subst; try (split; discriminate).
  destruct (rooted p); split; congruence.
Qed.

(** C1 (amended). A request whose path begins with a slash and is none of
    [/ping], [/version], [/payload], [/kubecreate] is matched by the root
    pattern, which names the whole tree: RootHandler answers it with
    status 303 and the Location [/ping].  (The path is in canonical form,
    or the method is CONNECT, for which the multiplexer does not
    canonicalise.)  The multiplexer finds no pattern for a path, and so
    falls back on the not-found handler, exactly when the path does not
    begin with a slash. *)
Theorem unmatched_rooted_path_redirects (req : Request) (st : St) (k : K) :
  RequestURI req <> "*" ->
  rooted (Path req) = true ->
  Method req = "CONNECT" \/ cleanPath (Path req) = Path req ->
  ~ In (Path req) ["/ping"; "/version"; "/payload"; "/kubecreate"] ->
  serve CreatePod req st k = RootHandler req (freshWorld st k)
  /\ (exists w, response CreatePod req st k = Some w
        /\ Code w = 303
        /\ HeaderGet "Location" w = Some "/ping")
  /\ (forall p, mux_match (s CreatePod) p = None <-> rooted p = false).
Proof.
  intros Huri Hrooted Hclean Hnot.
  assert (Hserve : serve CreatePod req st k = RootHandler req (freshWorld st k)).
  { unfold serve, ServeHTTP.
    apply String.eqb_neq in Huri. rewrite Huri.
    unfold mux_Handler.
    destruct (String.eqb (Method req) "CONNECT") eqn:Hm.
    - rewrite s_shouldRedirect, (s_handler_root _ Hrooted Hnot). reflexivity.
    - destruct Hclean as [Hc | Hc];
        [apply String.eqb_eq in Hc; congruence |].
      rewrite Hc, s_shouldRedirect, String.eqb_refl. cbn [negb].
      rewrite (s_handler_root _ Hrooted Hnot). reflexivity. }
  split; [exact Hserve |].
  split; [| intros p; apply s_match_none].
  unfold response. rewrite Hserve.
  destruct (RootHandler_fresh req st k) as (w & -> & Hcode & Hloc).
  exists (resp w). auto.
Qed.

End Properties.

(** ** The environment *)

(** C10. [EnvOrDefault] returns the fallback when the variable is not set
    and when it is set to the empty string; it returns the variable's
    value exactly when that value is not empty. *)
Theorem EnvOrDefault_spec (environ : gmap string string) (env fallback : string) :
  (environ !! env = None -> EnvOrDefault environ env fallback = fallback)
  /\ (environ !! env = Some "" -> EnvOrDefault environ env fallback = fallback)
  /\ (forall v, environ !! env = Some v -> v <> "" ->
        EnvOrDefault environ env fallback = v).
Proof.
  unfold EnvOrDefault, Getenv. repeat split.
  - intros ->. reflexivity.
  - intros ->. reflexivity.
  - intros v -> Hv. apply String.eqb_neq in Hv.
    change (default "" (Some v)) with v. rewrite Hv. reflexivity.
Qed.

(** * Concrete exchanges *)

(** The examples of the [fmt] documentation that fall in the modelled
    fragment, and a directive that does not. *)
Example doPrintf_missing : fmt.doPrintf "hi%d" [] = Some "hi%!d(MISSING)".
Proof. reflexivity. Qed.

Example doPrintf_noverb : fmt.doPrintf "%" [] = Some "%!(NOVERB)".
Proof. reflexivity. Qed.

Example doPrintf_percent : fmt.doPrintf "100%%" [] = Some "100%".
Proof. reflexivity. Qed.

Example doPrintf_width_unmodelled : fmt.doPrintf "%5s" ["x"] = None.
Proof. reflexivity. Qed.

(** Canonical paths, as [cleanPath] computes them. *)
Example cleanPath_examples :
  cleanPath "" = "/" /\ cleanPath "ping" = "/ping"
  /\ cleanPath "//ping" = "/ping" /\ cleanPath "/a/../ping/" = "/ping/"
  /\ cleanPath "/a/./b//c/../d" = "/a/b/d" /\ cleanPath "/.." = "/".
Proof. repeat split; reflexivity. Qed.

(** A path that is not canonical is answered by the multiplexer itself,
    with a permanent redirect to the canonical path. *)
Example noncanonical_path_moved :
  HeaderGet "Location" <$> response countingCreatePod (get "//version") pong 0
  = Some (Some "/version")
  /\ Code <$> response countingCreatePod (get "//version") pong 0 = Some 301.
Proof. split; reflexivity. Qed.

(** C1 (as stated, refuted). The path [/foo] is none of the five routes,
    and the request for it is answered with 303, not with 404. *)
Lemma unmatched_path_not_404 :
  ~ (forall req : Request,
       RequestURI req <> "*" ->
       ~ In (Path req) ["/"; "/ping"; "/version"; "/payload"; "/kubecreate"] ->
       exists w, response countingCreatePod req pong 0 = Some w /\ Code w = 404).
Proof.
  intros Hclaim.
  destruct (Hclaim (get "/foo")) as (w & Hw & Hcode).
  - cbn. discriminate.
  - cbn. intros [E | [E | [E | [E | [E | []]]]]]; discriminate E.
  - vm_compute in Hw. injection Hw as <-. discriminate Hcode.
Qed.

Lemma unmatched_rooted_path_redirects_witness :
  RequestURI (get "/foo") <> "*"
  /\ rooted (Path (get "/foo")) = true
  /\ cleanPath (Path (get "/foo")) = Path (get "/foo")
  /\ ~ In (Path (get "/foo")) ["/ping"; "/version"; "/payload"; "/kubecreate"]
  /\ exists w, response countingCreatePod (get "/foo") pong 0 = Some w
       /\ Code w = 303
       /\ HeaderGet "Location" w = Some "/ping".
Proof.
  assert (H1 : RequestURI (get "/foo") <> "*") by (cbn; discriminate).
  assert (H2 : rooted (Path (get "/foo")) = true) by reflexivity.
  assert (H3 : cleanPath (Path (get "/foo")) = Path (get "/foo")) by reflexivity.
  assert (H4 : ~ In (Path (get "/foo")) ["/ping"; "/version"; "/payload"; "/kubecreate"])
    by (cbn; intros [E | [E | [E | [E | []]]]]; discriminate E).
  repeat split; try assumption.
  exact (proj1 (proj2 (unmatched_rooted_path_redirects countingCreatePod
                         (get "/foo") pong 0 H1 H2 (or_intror H3) H4))).
Defined.

Lemma root_redirects_to_ping_witness :
  requestTo "/" (post "/" [("Accept", ["*/*"])] ("ignored", None))
  /\ exists w,
       response countingCreatePod
         (post "/" [("Accept", ["*/*"])] ("ignored", None)) pong 0 = Some w
       /\ Code w = 303
       /\ HeaderGet "Location" w = Some "/ping".
Proof.
  assert (H1 : requestTo "/" (post "/" [("Accept", ["*/*"])] ("ignored", None)))
    by (split; [cbn; discriminate | reflexivity]).
  split; [exact H1 |].
  exact (root_redirects_to_ping countingCreatePod _ pong 0 H1).
Defined.

Lemma ping_success_response_witness :
  requestTo "/ping" (get "/ping")
  /\ Ping pong = (("PONG", None), pong)
  /\ exists w, response countingCreatePod (get "/ping") pong 0 = Some w
       /\ Code w = 200
       /\ Body w = "PONG" +:+ newline.
Proof.
  assert (H1 : requestTo "/ping" (get "/ping"))
    by (split; [cbn; discriminate | reflexivity]).
  assert (H2 : Ping pong = (("PONG", None), pong)) by reflexivity.
  split; [exact H1 |]. split; [exact H2 |].
  exact (ping_success_response countingCreatePod (get "/ping") pong pong 0 "PONG" H1 H2).
Defined.

(** C3. The handler passes the error message to [Fprintf] as the format,
    so a message with a percent sign is not sent verbatim: for the
    message [usage at 100%] the body of the 500 response is
    [usage at 100%!(NOVERB)]. *)
Theorem ping_error_message_as_format :
  response countingCreatePod (get "/ping") (failing "usage at 100%") 0
  = Some {| Code := 500; HeaderMap := ∅; Body := "usage at 100%!(NOVERB)";
            wroteHeader := true |}
  /\ "usage at 100%!(NOVERB)" <> "usage at 100%".
Proof. split; [reflexivity | discriminate]. Qed.

(** C5 (as stated, refuted). The body of the answer to [/version] is not
    the bare name-and-version string: a newline follows it. *)
Lemma version_body_not_bare :
  ~ (forall req : Request,
       requestTo "/version" req ->
       exists w, response countingCreatePod req pong 0 = Some w
         /\ Code w = 200
         /\ Body w = Name +:+ " v" +:+ Version).
Proof.
  intros Hclaim.
  destruct (Hclaim (get "/version")) as (w & Hw & _ & Hbody).
  - split; [cbn; discriminate | reflexivity].
  - vm_compute in Hw. injection Hw as <-. vm_compute in Hbody. discriminate Hbody.
Qed.

Lemma version_response_witness :
  requestTo "/version" (post "/version" [] ("any", None))
  /\ response countingCreatePod (post "/version" [] ("any", None)) pong 0
     = Some {| Code := 200; HeaderMap := ∅;
               Body := Name +:+ " v" +:+ Version +:+ newline;
               wroteHeader := true |}.
Proof.
  assert (H1 : requestTo "/version" (post "/version" [] ("any", None)))
    by (split; [cbn; discriminate | reflexivity]).
  split; [exact H1 |].
  exact (version_response countingCreatePod _ pong 0 H1).
Defined.

Lemma payload_dump_layout_witness :
  requestTo "/payload" (post "/payload" [("X-Test", ["a"; "b"])] ("hello", None))
  /\ exists w,
       response countingCreatePod
         (post "/payload" [("X-Test", ["a"; "b"])] ("hello", None)) pong 0 = Some w
       /\ Code w = 200
       /\ Body w =
            "Method: POST" +:+ newline +:+ "Headers:" +:+ newline
            +:+ "X-Test: a" +:+ newline +:+ "X-Test: b" +:+ newline
            +:+ "Payload: hello".
Proof.
  assert (H1 : requestTo "/payload"
                 (post "/payload" [("X-Test", ["a"; "b"])] ("hello", None)))
    by (split; [cbn; discriminate | reflexivity]).
  split; [exact H1 |].
  destruct (payload_dump_layout countingCreatePod _ pong 0 "hello" H1 eq_refl)
    as (w & Hw & Hcode & Hbody & _).
  exists w. split; [exact Hw |]. split; [exact Hcode |]. exact Hbody.
Defined.

Lemma body_read_failure_500_witness :
  RequestURI (post "/kubecreate" [] ("par", Some "unexpected EOF")) <> "*"
  /\ serve countingCreatePod (post "/kubecreate" [] ("par", Some "unexpected EOF")) pong 0
     = Some (tt, {| resp := {| Code := 500; HeaderMap := ∅; Body := "";
                               wroteHeader := true |};
                    store := pong; cluster := 0; trace := [] |}).
Proof.
  assert (H1 : RequestURI (post "/kubecreate" [] ("par", Some "unexpected EOF")) <> "*")
    by (cbn; discriminate).
  split; [exact H1 |].
  exact (body_read_failure_500 countingCreatePod _ pong 0 "par" "unexpected EOF"
           H1 (or_intror eq_refl) eq_refl).
Defined.

Lemma kubecreate_response_witness :
  requestTo "/kubecreate" (post "/kubecreate" [] ("{}", None))
  /\ serve countingCreatePod (post "/kubecreate" [] ("{}", None)) pong 0
     = Some (tt, {| resp := {| Code := 200; HeaderMap := ∅;
                               Body := "Pods: first"; wroteHeader := true |};
                    store := pong; cluster := 1; trace := [EvCreatePod] |}).
Proof.
  assert (H1 : requestTo "/kubecreate" (post "/kubecreate" [] ("{}", None)))
    by (split; [cbn; discriminate | reflexivity]).
  split; [exact H1 |].
  exact (proj1 (kubecreate_response countingCreatePod _ pong 0 "{}" H1 eq_refl)).
Defined.

Lemma repeated_requests_identical_witness :
  (exists w, response countingCreatePod (get "/version") pong 0 = Some w
          /\ response countingCreatePod (get "/version") pong 1 = Some w)
  /\ response countingCreatePod (get "/ping") 0 1
     = Some {| Code := 200; HeaderMap := ∅; Body := "PONG" +:+ newline;
               wroteHeader := true |}.
Proof.
  split.
  - exact (proj1 (repeated_requests_identical countingCreatePod (get "/version")
                    pong pong 0 1) eq_refl).
  - exact (proj2 (repeated_requests_identical countingCreatePod (get "/ping")
                    0 0 0 1) eq_refl eq_refl _ eq_refl).
Defined.

Lemma EnvOrDefault_spec_witness :
  EnvOrDefault ∅ "SIMPLE_WEBSERVER_LISTEN" ":8082" = ":8082"
  /\ EnvOrDefault {["SIMPLE_WEBSERVER_LISTEN" := ""]} "SIMPLE_WEBSERVER_LISTEN" ":8082"
     = ":8082"
  /\ EnvOrDefault {["SIMPLE_WEBSERVER_LISTEN" := ":9090"]} "SIMPLE_WEBSERVER_LISTEN" ":8082"
     = ":9090".
Proof.
  split; [| split].
  - exact (proj1 (EnvOrDefault_spec ∅ "SIMPLE_WEBSERVER_LISTEN" ":8082") eq_refl).
  - exact (proj1 (proj2 (EnvOrDefault_spec {["SIMPLE_WEBSERVER_LISTEN" := ""]}
                           "SIMPLE_WEBSERVER_LISTEN" ":8082")) eq_refl).
  - refine (proj2 (proj2 (EnvOrDefault_spec {["SIMPLE_WEBSERVER_LISTEN" := ":9090"]}
                            "SIMPLE_WEBSERVER_LISTEN" ":8082")) ":9090" eq_refl _).
    discriminate.
Defined.

(** * Further properties of the handlers and of [main] *)

Section Effects.

Context {St K : Type} `{!Storage St} (CreatePod : K -> string * K).

Ltac run := unfold mbind, M_bind, mret, M_ret, onResp, freshWorld; cbn.

(** ** Dispatch as a decision list *)

Lemma rooted_cleanPath (p : string) : rooted (cleanPath p) = true.
Proof.
  unfold cleanPath.
  destruct (String.eqb p ""); [reflexivity |].
  destruct (ends_with_slash _ && negb _); reflexivity.
Qed.

(** The handler [main]'s multiplexer chooses for a path. *)
Lemma s_handler_cases (p : string) :
  mux_handler (s CreatePod) p =
    if String.eqb p "/kubecreate" then KubernetesCreateHandler CreatePod
    else if String.eqb p "/payload" then PayloadHandler
    else if String.eqb p "/version" then VersionHandler
    else if String.eqb p "/ping" then PingHandler
    else if rooted p then RootHandler
    else NotFoundHandler.
Proof.
  unfold mux_handler, mux_match. rewrite s_lookup, s_es.
  cbn [List.find pattern]. rewrite HasPrefix_slash.
  repeat case_decide; subst; try reflexivity.
  repeat match goal with
         | H : ?a <> p |- _ =>
           apply not_eq_sym in H; apply String.eqb_neq in H; rewrite H; clear H
         end.
  destruct (rooted p); reflexivity.
Qed.

(** What [ServeHTTP] does with a request, case by case. *)
Lemma ServeHTTP_cases (req : Request) :
  ServeHTTP (s CreatePod) req =
    if String.eqb (RequestURI req) "*" then
      (when (ProtoAtLeast req 1 1) (onResp (HeaderSet "Connection" "close"));;
       onResp (WriteHeader StatusBadRequest))
    else if negb (String.eqb (Method req) "CONNECT")
            && negb (String.eqb (cleanPath (Path req)) (Path req))
    then Redirect req (urlString (cleanPath (Path req)) (RawQuery req))
           StatusMovedPermanently
    else mux_handler (s CreatePod) (Path req) req.
Proof.
  unfold ServeHTTP, mux_Handler.
  destruct (String.eqb (RequestURI req) "*"); [reflexivity |].
  rewrite !s_shouldRedirect.
  destruct (String.eqb (Method req) "CONNECT"); [reflexivity |].
  cbn [negb andb].
  destruct (negb (String.eqb (cleanPath (Path req)) (Path req))); reflexivity.
Qed.

(** ** What each handler does to the world *)

Lemma asterisk_fresh (req : Request) (st : St) (k : K) :
  exists w,
    (when (ProtoAtLeast req 1 1) (onResp (HeaderSet "Connection" "close"));;
     onResp (WriteHeader StatusBadRequest)) (freshWorld st k) = Some (tt, w)
    /\ Code (resp w) = 400 /\ quiet st k w.
Proof.
  destruct (ProtoAtLeast req 1 1); run;
    (eexists; split; [reflexivity | split; [reflexivity | repeat split]]).
Qed.

Lemma Redirect_fresh (req : Request) (url : string) (code : nat) (st : St) (k : K)
    (w : World) :
  Redirect req url code (freshWorld st k) = Some (tt, w) ->
  Code (resp w) = code /\ quiet st k w.
Proof.
  unfold Redirect. destruct (plain_url url); [| discriminate].
  run.
  destruct (String.eqb (Method req) "GET"); run;
    [| destruct (String.eqb (Method req) "HEAD"); run ];
    intros Hw; injection Hw as <-; (split; [reflexivity | repeat split]).
Qed.

Lemma NotFound_fresh (req : Request) (st : St) (k : K) :
  exists w, NotFoundHandler req (freshWorld st k) = Some (tt, w)
    /\ Code (resp w) = 404 /\ quiet st k w.
Proof.
  eexists. split; [reflexivity |]. split; [reflexivity | repeat split].
Qed.

Lemma VersionHandler_fresh (req : Request) (st : St) (k : K) :
  exists w, VersionHandler req (freshWorld st k) = Some (tt, w)
    /\ Code (resp w) = 200 /\ quiet st k w.
Proof.
  eexists. split; [reflexivity |]. split; [reflexivity | repeat split].
Qed.

(** PingHandler probes once and sends 200 or 500 by the error alone. *)
Lemma PingHandler_fresh (req : Request) (st : St) (k : K) (w : World) :
  PingHandler req (freshWorld st k) = Some (tt, w) ->
  store w = snd (Ping st) /\ cluster w = k /\ trace w = [EvPing]
  /\ Code (resp w) = match snd (fst (Ping st)) with
                     | Some _ => 500
                     | None => 200
                     end.
Proof.
  unfold PingHandler, callPing. run.
  destruct (Ping st) as [[res err] st']. run.
  destruct err as [msg |]; run.
  - unfold Fprintf. destruct (fmt.doPrintf msg []); [| discriminate].
    run. intros Hw. injection Hw as <-. repeat split.
  - intros Hw. injection Hw as <-. repeat split.
Qed.


Lemma logged_map_EvLog (chunks : list string) : logged (map EvLog chunks) = chunks.
Proof.
  induction chunks as [|c chunks IH]; [reflexivity |].
  cbn. unfold logged in IH. rewrite IH. reflexivity.
Qed.

(** PayloadHandler logs each chunk just before it writes it. *)
Lemma PayloadHandler_run (req : Request) (data : string) (st : St) (k : K) :
  ReqBody req = (data, None) ->
  PayloadHandler req (freshWorld st k) =
    Some (tt, {| resp := writeAll (payloadChunks req data)
                           (WriteHeader StatusOK NewRecorder);
                 store := st; cluster := k;
                 trace := map EvLog (payloadChunks req data) |}).
Proof.
  intros Hbody. unfold PayloadHandler, payloadChunks. rewrite Hbody.
  unfold log_Printf, log_Println, Fprintf, Fprint, when.
  rewrite doPrintf_method_line, doPrintf_payload_line.
  destruct (Nat.ltb 0 (length (Header req))).
  - run. rewrite rangeHeader_run. run.
    rewrite map_app. unfold writeAll. cbn [fold_left].
    rewrite fold_left_app. reflexivity.
  - reflexivity.
Qed.

Lemma PayloadHandler_fresh (req : Request) (st : St) (k : K) :
  exists w, PayloadHandler req (freshWorld st k) = Some (tt, w)
    /\ Code (resp w) = match snd (ReqBody req) with
                       | Some _ => 500
                       | None => 200
                       end
    /\ store w = st /\ cluster w = k
    /\ trace w = map EvLog (logged (trace w)).
Proof.
  destruct (ReqBody req) as [data [msg |]] eqn:Hbody.
  - unfold PayloadHandler. rewrite Hbody. eexists.
    split; [reflexivity |]. repeat split.
  - rewrite (PayloadHandler_run req data st k Hbody). eexists.
    split; [reflexivity |]. cbn [resp store cluster trace snd].
    rewrite logged_map_EvLog. repeat split.
    destruct (writeAll_sent (payloadChunks req data)
                (WriteHeader StatusOK NewRecorder) eq_refl) as (_ & Hc & _).
    exact Hc.
Qed.

Lemma KubernetesCreateHandler_fresh (req : Request) (st : St) (k : K) :
  exists w, KubernetesCreateHandler CreatePod req (freshWorld st k) = Some (tt, w)
    /\ Code (resp w) = match snd (ReqBody req) with
                       | Some _ => 500
                       | None => 200
                       end
    /\ store w = st
    /\ cluster w = match snd (ReqBody req) with
                   | Some _ => k
                   | None => snd (CreatePod k)
                   end
    /\ trace w = match snd (ReqBody req) with
                 | Some _ => []
                 | None => [EvCreatePod]
                 end.
Proof.
  unfold KubernetesCreateHandler.
  destruct (ReqBody req) as [data [msg |]].
  - eexists. split; [reflexivity |]. repeat split.
  - unfold callCreatePod, mbind, M_bind, freshWorld. cbn [cluster].
    destruct (CreatePod k) as [pods k']. unfold Fprintf.
    rewrite doPrintf_pods. eexists. split; [reflexivity |]. repeat split.
Qed.

(** ** Every exchange is one of eight *)

Lemma serve_exchange (req : Request) (st : St) (k : K) (w : World) :
  serve CreatePod req st k = Some (tt, w) -> Exchange CreatePod req st k w.
Proof.
  unfold serve. rewrite ServeHTTP_cases.
  destruct (String.eqb (RequestURI req) "*") eqn:Huri.
  { apply String.eqb_eq in Huri.
    destruct (asterisk_fresh req st k) as (w' & -> & Hc & Hq).
    intros Hw. injection Hw as <-. now apply ExAsterisk. }
  apply String.eqb_neq in Huri.
  destruct (String.eqb (Method req) "CONNECT") eqn:Hm;
    destruct (String.eqb (cleanPath (Path req)) (Path req)) eqn:Hclean;
    cbn [negb andb].
  4: { intros Hw. apply Redirect_fresh in Hw as [Hc Hq].
       apply String.eqb_neq in Hm, Hclean. now apply ExMoved. }
  all: rewrite s_handler_cases.
  all: destruct (String.eqb (Path req) "/kubecreate") eqn:H1;
    [ apply String.eqb_eq in H1;
      destruct (KubernetesCreateHandler_fresh req st k) as (w' & -> & Hc & Hs & Hk & Ht);
      intros Hw; injection Hw as <-; now apply ExKubecreate |].
  all: destruct (String.eqb (Path req) "/payload") eqn:H2;
    [ apply String.eqb_eq in H2;
      destruct (PayloadHandler_fresh req st k) as (w' & -> & Hc & Hs & Hk & Ht);
      intros Hw; injection Hw as <-; now apply ExPayload |].
  all: destruct (String.eqb (Path req) "/version") eqn:H3;
    [ apply String.eqb_eq in H3;
      destruct (VersionHandler_fresh req st k) as (w' & -> & Hc & Hq);
      intros Hw; injection Hw as <-; now apply ExVersion |].
  all: destruct (String.eqb (Path req) "/ping") eqn:H4;
    [ apply String.eqb_eq in H4;
      intros Hw; apply PingHandler_fresh in Hw as (Hs & Hk & Ht & Hc);
      now apply ExPing |].
  all: apply String.eqb_neq in H1, H2, H3, H4.
  all: assert (Hnot : ~ In (Path req) ["/ping"; "/version"; "/payload"; "/kubecreate"])
    by (cbn; intros [E | [E | [E | [E | []]]]]; congruence).
  all: destruct (rooted (Path req)) eqn:Hrooted;
    [ intros Hw; apply Redirect_fresh in Hw as [Hc Hq]; now apply ExRoot |].
  all: destruct (NotFound_fresh req st k) as (w' & -> & Hc & Hq);
    intros Hw; injection Hw as <-.
  - apply String.eqb_eq in Hm. now apply ExNotFound.
  - apply String.eqb_eq in Hm. now apply ExNotFound.
  - apply String.eqb_eq in Hclean.
    rewrite <- Hclean, rooted_cleanPath in Hrooted. discriminate Hrooted.
Qed.


(** ** The request dump and its log *)

(** X2. PayloadHandler logs what it writes: for a request to [/payload]
    whose body was read, the logged messages, put end to end, are the
    response body; the handler does nothing but log, and leaves storage
    and cluster as they were. *)
Theorem payload_logs_what_it_writes (req : Request) (st : St) (k : K)
    (data : string) :
  requestTo "/payload" req ->
  ReqBody req = (data, None) ->
  exists w, serve CreatePod req st k = Some (tt, w)
    /\ String.concat "" (logged (trace w)) = Body (resp w)
    /\ trace w = map EvLog (logged (trace w))
    /\ store w = st /\ cluster w = k.
Proof.
  intros [Huri Hpath] Hbody. unfold serve.
  rewrite (ServeHTTP_exact _ req {| h := @PayloadHandler St K; pattern := "/payload" |} Huri);
    [| rewrite Hpath; reflexivity | right; rewrite Hpath; reflexivity].
  cbn [h]. rewrite (PayloadHandler_run req data st k Hbody).
  eexists. split; [reflexivity |].
  cbn [resp store cluster trace]. rewrite logged_map_EvLog.
  destruct (writeAll_sent (payloadChunks req data)
              (WriteHeader StatusOK NewRecorder) eq_refl) as (_ & _ & _ & Hb).
  rewrite Hb. repeat split.
Qed.

(** ** Who touches the collaborators *)

Lemma count_occ_map_EvLog (chunks : list string) (e : Event) :
  (forall msg, e <> EvLog msg) ->
  count_occ Event_eq_dec (map EvLog chunks) e = 0.
Proof.
  intros Hne. induction chunks as [|c chunks IH]; [reflexivity |].
  cbn [map]. rewrite count_occ_cons_neq; [exact IH |].
  intros E. exact (Hne c (eq_sym E)).
Qed.

(** X3. The storage is probed by requests to [/ping] and by no other:
    an exchange either is a request to [/ping], probes exactly once and
    leaves the storage in the state the probe left it in, or is not,
    probes never and leaves the storage as it was. *)
Theorem only_ping_probes (req : Request) (st : St) (k : K) (w : World) :
  serve CreatePod req st k = Some (tt, w) ->
  (requestTo "/ping" req
     /\ count_occ Event_eq_dec (trace w) EvPing = 1
     /\ store w = snd (Ping st))
  \/ (~ requestTo "/ping" req
      /\ count_occ Event_eq_dec (trace w) EvPing = 0
      /\ store w = st).
Proof.
  intros Hw. unfold requestTo.
  destruct (serve_exchange req st k w Hw)
    as [Hu Hc [Hs [Hk Ht]] | Hu Hm Hp Hc [Hs [Hk Ht]] | Hu Hm Hp Hc [Hs [Hk Ht]]
        | Hu Hr Hp Hc [Hs [Hk Ht]] | Hu Hp Hc Hs Hk Ht | Hu Hp Hc [Hs [Hk Ht]]
        | Hu Hp Hc Hs Hk Ht | Hu Hp Hc Hs Hk Ht].
  5: { left. rewrite Ht. auto. }
  all: right; (split; [| split; [| exact Hs]]).
  all: try (rewrite Ht; reflexivity).
  all: try (intros [Hu' Hp']; first
    [ contradiction
    | rewrite Hp' in Hp; discriminate Hp
    | apply Hp; rewrite Hp'; simpl; tauto
    | rewrite Hp' in Hm; discriminate Hm ]).
  - rewrite Ht. apply count_occ_map_EvLog. discriminate.
  - rewrite Ht. destruct (snd (ReqBody req)); reflexivity.
Qed.

(** X4. Pods are created by requests to [/kubecreate] whose body was
    read, and by no other: such an exchange calls [CreatePod] exactly
    once; every other exchange never calls it and leaves the cluster as it
    was. *)
Theorem only_kubecreate_creates_pods (req : Request) (st : St) (k : K)
    (w : World) :
  serve CreatePod req st k = Some (tt, w) ->
  (requestTo "/kubecreate" req /\ snd (ReqBody req) = None
     /\ count_occ Event_eq_dec (trace w) EvCreatePod = 1
     /\ cluster w = snd (CreatePod k))
  \/ (~ (requestTo "/kubecreate" req /\ snd (ReqBody req) = None)
      /\ count_occ Event_eq_dec (trace w) EvCreatePod = 0
      /\ cluster w = k).
Proof.
  intros Hw. unfold requestTo.
  destruct (serve_exchange req st k w Hw)
    as [Hu Hc [Hs [Hk Ht]] | Hu Hm Hp Hc [Hs [Hk Ht]] | Hu Hm Hp Hc [Hs [Hk Ht]]
        | Hu Hr Hp Hc [Hs [Hk Ht]] | Hu Hp Hc Hs Hk Ht | Hu Hp Hc [Hs [Hk Ht]]
        | Hu Hp Hc Hs Hk Ht | Hu Hp Hc Hs Hk Ht].
  8: { destruct (snd (ReqBody req)) as [msg |].
       - right. rewrite Ht. split; [| auto]. intros [_ E]. discriminate E.
       - left. rewrite Ht. auto. }
  all: right; (split; [| split; [| exact Hk]]).
  all: try (rewrite Ht; reflexivity).
  all: try (intros [[Hu' Hp'] _]; first
    [ contradiction
    | rewrite Hp' in Hp; discriminate Hp
    | apply Hp; rewrite Hp'; simpl; tauto
    | rewrite Hp' in Hm; discriminate Hm ]).
  rewrite Ht. apply count_occ_map_EvLog. discriminate.
Qed.


(** ** What a status code tells *)

Lemma response_exchange (req : Request) (st : St) (k : K) (r : ResponseWriter) :
  response CreatePod req st k = Some r ->
  exists w, resp w = r /\ Exchange CreatePod req st k w.
Proof.
  unfold response.
  destruct (serve CreatePod req st k) as [[[] w] |] eqn:Hserve; [| discriminate].
  intros Hr. injection Hr as <-.
  exists w. split; [reflexivity |]. now apply serve_exchange.
Qed.

Ltac by_status :=
  repeat match goal with
         | H : Code _ = match ?x with _ => _ end |- _ => destruct x eqn:?
         end;
  try congruence.

(** X5. The catch-all root route leaves almost nothing to the not-found
    handler: a response with status 404 answers a CONNECT request whose
    path does not begin with a slash. *)
Theorem not_found_only_for_unrooted_connect (req : Request) (st : St) (k : K)
    (r : ResponseWriter) :
  response CreatePod req st k = Some r ->
  Code r = 404 ->
  Method req = "CONNECT" /\ rooted (Path req) = false.
Proof.
  intros Hr H404.
  destruct (response_exchange req st k r Hr) as (w & <- & Hex).
  destruct Hex; by_status. auto.
Qed.

(** X6. A response with status 500 has one of two causes: the probe of a
    request to [/ping] returned an error, or the body of a request to
    [/payload] or [/kubecreate] could not be read. *)
Theorem internal_error_causes (req : Request) (st : St) (k : K)
    (r : ResponseWriter) :
  response CreatePod req st k = Some r ->
  Code r = 500 ->
  (requestTo "/ping" req /\ snd (fst (Ping st)) <> None)
  \/ ((requestTo "/payload" req \/ requestTo "/kubecreate" req)
      /\ snd (ReqBody req) <> None).
Proof.
  intros Hr H500. unfold requestTo.
  destruct (response_exchange req st k r Hr) as (w & <- & Hex).
  destruct Hex; by_status.
  - left. repeat split; congruence.
  - right. repeat split; try congruence. left. auto.
  - right. repeat split; try congruence. right. auto.
Qed.


End Effects.

(** ** The environment and the command line *)

Lemma EnvOrDefault_keeps_nonempty (environ : gmap string string)
    (env fallback : string) :
  fallback <> "" -> EnvOrDefault environ env fallback <> "".
Proof.
  intros Hfallback. unfold EnvOrDefault.
  destruct (String.eqb (Getenv environ env) "") eqn:Hv; cbn [negb].
  - exact Hfallback.
  - now apply String.eqb_neq.
Qed.

(** X8. A fallback that is not empty makes the result of [EnvOrDefault]
    not empty, whatever the environment holds. *)
Theorem EnvOrDefault_nonempty (environ : gmap string string) (env fallback : string) :
  fallback <> "" -> EnvOrDefault environ env fallback <> "".
Proof.
  intros Hfallback. unfold EnvOrDefault.
  destruct (String.eqb (Getenv environ env) "") eqn:Hvalue; cbn [negb].
  - exact Hfallback.
  - apply String.eqb_neq. exact Hvalue.
Qed.

(** X9. [EnvOrDefault] reads the variable it is asked for and no other:
    setting or unsetting another variable does not change its result. *)
Theorem EnvOrDefault_other_variable (environ : gmap string string)
    (env fallback key value : string) :
  key <> env ->
  EnvOrDefault (<[key := value]> environ) env fallback
    = EnvOrDefault environ env fallback
  /\ EnvOrDefault (delete key environ) env fallback
    = EnvOrDefault environ env fallback.
Proof.
  intros Hne. unfold EnvOrDefault, Getenv.
  rewrite lookup_insert_ne, lookup_delete_ne by exact Hne. split; reflexivity.
Qed.

(** X10. Without command-line arguments [main] serves on the addresses
    the environment gives, or on the built-in ones; neither address is
    empty. *)
Theorem main_without_flags (environ : gmap string string) :
  exists f, main environ [] = inr f
    /\ listenFlag f = EnvOrDefault environ "SIMPLE_WEBSERVER_LISTEN" ":8082"
    /\ redisFlag f = EnvOrDefault environ "SIMPLE_WEBSERVER_REDIS" ":6379"
    /\ listenFlag f <> "" /\ redisFlag f <> "".
Proof.
  exists (declaredFlags environ). repeat split.
  - apply EnvOrDefault_keeps_nonempty. discriminate.
  - apply EnvOrDefault_keeps_nonempty. discriminate.
Qed.

(** Parsing the arguments of a setting assigns its flag and goes on. *)
Lemma Parse_render (x : Setting) (f : Flags) (more : list string) :
  flag.Parse isDeclared setFlag f (render x ++ more)
  = flag.Parse isDeclared setFlag (applySetting f x) more.
Proof. destruct x as [[|] [|] [|] v]; reflexivity. Qed.

Lemma Parse_argv (settings : list Setting) (f : Flags) (more : list string) :
  flag.Parse isDeclared setFlag f (argv settings ++ more)
  = flag.Parse isDeclared setFlag (fold_left applySetting settings f) more.
Proof.
  revert f. induction settings as [|x settings IH]; intros f; [reflexivity |].
  unfold argv. cbn [flat_map fold_left]. rewrite <- app_assoc.
  rewrite Parse_render. apply IH.
Qed.

Lemma listenFlag_fold (settings : list Setting) (f : Flags) :
  listenFlag (fold_left applySetting settings f)
  = default (listenFlag f) (lastValue Listen settings).
Proof.
  revert f. induction settings as [|x settings IH]; intros f; [reflexivity |].
  cbn [fold_left lastValue]. rewrite IH.
  destruct (lastValue Listen settings); [reflexivity |].
  destruct x as [[|] d j v]; reflexivity.
Qed.

Lemma redisFlag_fold (settings : list Setting) (f : Flags) :
  redisFlag (fold_left applySetting settings f)
  = default (redisFlag f) (lastValue Redis settings).
Proof.
  revert f. induction settings as [|x settings IH]; intros f; [reflexivity |].
  cbn [fold_left lastValue]. rewrite IH.
  destruct (lastValue Redis settings); [reflexivity |].
  destruct x as [[|] d j v]; reflexivity.
Qed.

(** X11. The command line wins over the environment.  For every command
    line made of settings of the two flags, in any number and order, each
    written with one or two dashes and with its value joined by an equals
    sign or in the next argument, whatever the values (the empty string
    too, which the environment could not give): [main] parses it without
    error, and each address is the value of the last setting of its flag,
    or, when the flag is not set, what [EnvOrDefault] gives. *)
Theorem main_flag_overrides_environment (environ : gmap string string)
    (settings : list Setting) :
  exists f, main environ (argv settings) = inr f
    /\ listenFlag f
       = default (EnvOrDefault environ "SIMPLE_WEBSERVER_LISTEN" ":8082")
           (lastValue Listen settings)
    /\ redisFlag f
       = default (EnvOrDefault environ "SIMPLE_WEBSERVER_REDIS" ":6379")
           (lastValue Redis settings).
Proof.
  exists (fold_left applySetting settings (declaredFlags environ)).
  split; [| split].
  - unfold main. rewrite <- (app_nil_r (argv settings)), Parse_argv.
    reflexivity.
  - apply listenFlag_fold.
  - apply redisFlag_fold.
Qed.

(** X12. The first argument that is not a flag ends the flags, wherever
    it stands: after any settings of the two flags, an argument that is a
    lone dash, the terminator [--] or does not begin with a dash makes
    [main] ignore it and everything after it, even what looks like a
    flag. *)
Theorem main_stops_at_first_non_flag (environ : gmap string string)
    (settings : list Setting) (arg : string) (rest : list string) :
  arg = "-" \/ arg = "--" \/ (forall tail, arg <> String "-" tail) ->
  main environ (argv settings ++ arg :: rest) = main environ (argv settings).
Proof.
  intros Harg. unfold main.
  rewrite <- (app_nil_r (argv settings)) at 2. rewrite !Parse_argv.
  destruct Harg as [-> | [-> | Hnot]]; [reflexivity | reflexivity |].
  cbn [flag.Parse].
  assert (Hshape : flag.shape arg = flag.NonFlag).
  { destruct arg as [|c0 [|c1 tail]]; try reflexivity.
    cbn [flag.shape]. destruct (Ascii.eqb c0 "-") eqn:Hc0; [| reflexivity].
    apply Ascii.eqb_eq in Hc0. subst c0. now destruct (Hnot (String c1 tail)). }
  rewrite Hshape. reflexivity.
Qed.

Lemma letter_not (c d : ascii) :
  is_letter c = true -> is_letter d = false -> Ascii.eqb c d = false.
Proof.
  intros Hc Hd. apply Ascii.eqb_neq. intros ->. congruence.
Qed.

Lemma cutEquals_letters (name : string) :
  all_bytes is_letter name = true -> flag.cutEquals name = None.
Proof.
  induction name as [|c name IH]; [reflexivity |].
  cbn [all_bytes flag.cutEquals]. intros [Hc Hname]%andb_prop.
  rewrite (letter_not c "=" Hc eq_refl), (IH Hname). reflexivity.
Qed.

(** X13. A flag that was not declared stops [main] before it serves,
    wherever the parse meets it: after any settings of the two flags, an
    argument made of one or two dashes and a name of letters that is none
    of [listen], [redis], [help] and [h] makes the parse fail with the
    error that names the flag, whatever the arguments after it. *)
Theorem main_rejects_undeclared_flag (environ : gmap string string)
    (settings : list Setting) (name : string) (rest : list string) :
  name <> "" ->
  all_bytes is_letter name = true ->
  ~ In name ["listen"; "redis"; "help"; "h"] ->
  main environ (argv settings ++ ("-" +:+ name) :: rest)
    = inl (flag.NotDefined name)
  /\ main environ (argv settings ++ ("--" +:+ name) :: rest)
    = inl (flag.NotDefined name).
Proof.
  intros Hne Hletters Hnot.
  destruct name as [|c tail]; [congruence |].
  cbn [all_bytes] in Hletters. apply andb_prop in Hletters as [Hc Htail].
  assert (Hminus : Ascii.eqb c "-" = false) by exact (letter_not c "-" Hc eq_refl).
  assert (Hequals : Ascii.eqb c "=" = false) by exact (letter_not c "=" Hc eq_refl).
  assert (Hdecl : isDeclared (String c tail) = false).
  { unfold isDeclared. apply orb_false_iff.
    split; apply String.eqb_neq; intros E; apply Hnot; rewrite E; simpl; tauto. }
  assert (Hhelp : String.eqb (String c tail) "help" || String.eqb (String c tail) "h" = false).
  { apply orb_false_iff.
    split; apply String.eqb_neq; intros E; apply Hnot; rewrite E; simpl; tauto. }
  assert (Hparse : forall arg, flag.shape arg = flag.Flag (String c tail) ->
            main environ (argv settings ++ arg :: rest)
            = inl (flag.NotDefined (String c tail))).
  { intros arg Hshape. unfold main. rewrite Parse_argv.
    cbn [flag.Parse]. rewrite Hshape.
    cbn [flag.badName]. rewrite Hminus, Hequals. cbn [orb].
    unfold flag.splitValue. rewrite (cutEquals_letters tail Htail).
    rewrite Hdecl, Hhelp. reflexivity. }
  split; apply Hparse.
  - change ("-" +:+ String c tail) with (String "-" (String c tail)).
    cbn [flag.shape]. rewrite Ascii.eqb_refl, Hminus. reflexivity.
  - change ("--" +:+ String c tail) with (String "-" (String "-" (String c tail))).
    cbn [flag.shape]. rewrite !Ascii.eqb_refl. reflexivity.
Qed.

(** ** Instances *)

Lemma ping_error_without_percent_witness :
  requestTo "/ping" (get "/ping")
  /\ Ping (failing "connection refused") = (("", Some "connection refused"), failing "connection refused")
  /\ contains_byte "%" "connection refused" = false
  /\ exists w, response countingCreatePod (get "/ping") (failing "connection refused") 0 = Some w
       /\ Code w = 500
       /\ Body w = "connection refused".
Proof.
  assert (H1 : requestTo "/ping" (get "/ping"))
    by (split; [cbn; discriminate | reflexivity]).
  split; [exact H1 |]. split; [reflexivity |]. split; [reflexivity |].
  exact (ping_error_without_percent countingCreatePod (get "/ping")
           (failing "connection refused") (failing "connection refused") 0
           "" "connection refused" H1 eq_refl eq_refl).
Defined.

Lemma payload_logs_what_it_writes_witness :
  requestTo "/payload" (post "/payload" [("X-Test", ["a"; "b"])] ("hello", None))
  /\ exists w,
       serve countingCreatePod
         (post "/payload" [("X-Test", ["a"; "b"])] ("hello", None)) pong 0
       = Some (tt, w)
       /\ String.concat "" (logged (trace w)) = Body (resp w)
       /\ trace w = map EvLog (logged (trace w))
       /\ store w = pong /\ cluster w = 0.
Proof.
  assert (H1 : requestTo "/payload"
                 (post "/payload" [("X-Test", ["a"; "b"])] ("hello", None)))
    by (split; [cbn; discriminate | reflexivity]).
  split; [exact H1 |].
  exact (payload_logs_what_it_writes countingCreatePod _ pong 0 "hello" H1 eq_refl).
Defined.

Lemma only_ping_probes_witness :
  serve countingCreatePod (get "/ping") 2 0
  = Some (tt, {| resp := {| Code := 500; HeaderMap := ∅;
                            Body := "connection refused"; wroteHeader := true |};
                 store := 1; cluster := 0; trace := [EvPing] |})
  /\ count_occ Event_eq_dec [EvPing] EvPing = 1
  /\ (1 : nat) = snd (Ping 2).
Proof.
  assert (H1 : serve countingCreatePod (get "/ping") 2 0
    = Some (tt, {| resp := {| Code := 500; HeaderMap := ∅;
                              Body := "connection refused"; wroteHeader := true |};
                   store := 1; cluster := 0; trace := [EvPing] |}))
    by reflexivity.
  split; [exact H1 |].
  destruct (only_ping_probes countingCreatePod (get "/ping") 2 0 _ H1)
    as [(_ & Hcount & Hstore) | (Hnot & _)].
  - split; [exact Hcount | exact Hstore].
  - destruct Hnot. split; [cbn; discriminate | reflexivity].
Defined.

Lemma only_kubecreate_creates_pods_witness :
  serve countingCreatePod (get "/version") pong 3
  = Some (tt, {| resp := {| Code := 200; HeaderMap := ∅;
                            Body := Name +:+ " v" +:+ Version +:+ newline;
                            wroteHeader := true |};
                 store := pong; cluster := 3; trace := [] |})
  /\ count_occ Event_eq_dec (@nil Event) EvCreatePod = 0.
Proof.
  assert (H1 : serve countingCreatePod (get "/version") pong 3
    = Some (tt, {| resp := {| Code := 200; HeaderMap := ∅;
                              Body := Name +:+ " v" +:+ Version +:+ newline;
                              wroteHeader := true |};
                   store := pong; cluster := 3; trace := [] |}))
    by reflexivity.
  split; [exact H1 |].
  destruct (only_kubecreate_creates_pods countingCreatePod (get "/version") pong 3 _ H1)
    as [([_ Hpath] & _) | (_ & Hcount & _)].
  - discriminate Hpath.
  - exact Hcount.
Defined.

Lemma not_found_only_for_unrooted_connect_witness :
  (Code <$> response countingCreatePod (connect "example.com:443") pong 0) = Some 404
  /\ Method (connect "example.com:443") = "CONNECT"
  /\ rooted (Path (connect "example.com:443")) = false.
Proof.
  split; [reflexivity |].
  destruct (response countingCreatePod (connect "example.com:443") pong 0)
    as [r |] eqn:Hr; [| discriminate Hr].
  refine (not_found_only_for_unrooted_connect countingCreatePod
            (connect "example.com:443") pong 0 r Hr _).
  vm_compute in Hr. injection Hr as <-. reflexivity.
Defined.

Lemma internal_error_causes_witness :
  (Code <$> response countingCreatePod
              (post "/payload" [] ("par", Some "unexpected EOF")) pong 0) = Some 500
  /\ ((requestTo "/ping" (post "/payload" [] ("par", Some "unexpected EOF"))
       /\ snd (fst (Ping pong)) <> None)
      \/ ((requestTo "/payload" (post "/payload" [] ("par", Some "unexpected EOF"))
           \/ requestTo "/kubecreate" (post "/payload" [] ("par", Some "unexpected EOF")))
          /\ snd (ReqBody (post "/payload" [] ("par", Some "unexpected EOF"))) <> None)).
Proof.
  split; [reflexivity |].
  destruct (response countingCreatePod
              (post "/payload" [] ("par", Some "unexpected EOF")) pong 0)
    as [r |] eqn:Hr; [| discriminate Hr].
  refine (internal_error_causes countingCreatePod _ pong 0 r Hr _).
  vm_compute in Hr. injection Hr as <-. reflexivity.
Defined.


Lemma EnvOrDefault_nonempty_witness :
  ":8082" <> ""
  /\ EnvOrDefault {["SIMPLE_WEBSERVER_LISTEN" := ""]} "SIMPLE_WEBSERVER_LISTEN" ":8082" <> "".
Proof.
  assert (H1 : ":8082" <> "") by discriminate.
  split; [exact H1 |].
  exact (EnvOrDefault_nonempty _ "SIMPLE_WEBSERVER_LISTEN" ":8082" H1).
Defined.

Lemma EnvOrDefault_other_variable_witness :
  "SIMPLE_WEBSERVER_REDIS" <> "SIMPLE_WEBSERVER_LISTEN"
  /\ EnvOrDefault (<["SIMPLE_WEBSERVER_REDIS" := "db:6379"]> ∅)
       "SIMPLE_WEBSERVER_LISTEN" ":8082"
     = EnvOrDefault ∅ "SIMPLE_WEBSERVER_LISTEN" ":8082".
Proof.
  assert (H1 : "SIMPLE_WEBSERVER_REDIS" <> "SIMPLE_WEBSERVER_LISTEN") by discriminate.
  split; [exact H1 |].
  exact (proj1 (EnvOrDefault_other_variable ∅ "SIMPLE_WEBSERVER_LISTEN" ":8082"
                  "SIMPLE_WEBSERVER_REDIS" "db:6379" H1)).
Defined.

Lemma main_stops_at_first_non_flag_witness :
  (forall tail, "serve" <> String "-" tail)
  /\ main ∅ ["-listen=:1"; "--redis"; "db:1"; "serve"; "-listen=:9090"]
     = inr {| listenFlag := ":1"; redisFlag := "db:1" |}.
Proof.
  assert (H1 : forall tail, "serve" <> String "-" tail) by (intros tail; discriminate).
  split; [exact H1 |].
  exact (eq_trans
           (main_stops_at_first_non_flag ∅
              [mkSetting Listen false true ":1"; mkSetting Redis true false "db:1"]
              "serve" ["-listen=:9090"] (or_intror (or_intror H1)))
           eq_refl).
Defined.

Lemma main_rejects_undeclared_flag_witness :
  "port" <> ""
  /\ all_bytes is_letter "port" = true
  /\ ~ In "port" ["listen"; "redis"; "help"; "h"]
  /\ main ∅ ["-listen=:1"; "-port"; "8080"] = inl (flag.NotDefined "port").
Proof.
  assert (H1 : "port" <> "") by discriminate.
  assert (H3 : ~ In "port" ["listen"; "redis"; "help"; "h"])
    by (cbn; intros [E | [E | [E | [E | []]]]]; discriminate E).
  split; [exact H1 |]. split; [reflexivity |]. split; [exact H3 |].
  exact (proj1 (main_rejects_undeclared_flag ∅ [mkSetting Listen false true ":1"]
                  "port" ["8080"] H1 eq_refl H3)).
Defined.

(** The precedence at work: two settings of the listen address, the later
    one empty, against an environment that sets both variables. *)
Example main_flag_overrides_environment_example :
  main {["SIMPLE_WEBSERVER_LISTEN" := ":7000"; "SIMPLE_WEBSERVER_REDIS" := "db:6379"]}
       ["--listen"; ":1"; "-listen="]
  = inr {| listenFlag := ""; redisFlag := "db:6379" |}.
Proof. reflexivity. Qed.
